(** * MovieListApp/static/app.js: the browser client of the movie lists

    A shallow embedding of [app.js] and the properties of its formatter,
    renderer, refresh controller, live-update channel, edit modal and list
    management handlers.

    Conventions of the embedding:
    - a JavaScript string is the list of its UTF-16 code units;
    - a JavaScript number that the code only uses as an integer is a [Z];
      this is exact below 2^53, the range in which IEEE doubles represent
      every integer, and the statements about numbers say so;
    - the object a request carries as its JSON body is a [gmap] from
      property names;
    - an event handler is a computation in a state-and-exception monad over
      the page state; what the environment answers (server replies, the
      user's answers to [confirm] and [prompt], whether [EventSource] can be
      constructed) is read from an oracle that may depend on everything that
      happened before. *)

From Stdlib Require Import ZArith NArith List String Ascii Bool Lia.
From Stdlib Require Import DecimalN DecimalPos.
From stdpp Require Import base option list gmap strings.

Local Open Scope N_scope.

(** ** JavaScript strings and the built-ins the program calls *)

Module JS.

(** A string value: its UTF-16 code units. *)
Definition jsstring : Type := list N.

(** A source-code literal made of ASCII characters. *)
Definition str (s : string) : jsstring :=
  List.map N_of_ascii (list_ascii_of_string s).

Definition jsstring_eqb (a b : jsstring) : bool :=
  bool_decide (a = b).

(** Truthiness of a string: the empty string is falsy. *)
Definition truthy (s : jsstring) : bool :=
  match s with [] => false | _ :: _ => true end.

(** ECMAScript WhiteSpace and LineTerminator code points, the characters
    [String.prototype.trim] and [parseInt] skip. *)
Definition is_white_space (c : N) : bool :=
  (c =? 9) || (c =? 10) || (c =? 11) || (c =? 12) || (c =? 13)
  || (c =? 32) || (c =? 160) || (c =? 5760)
  || ((8192 <=? c) && (c <=? 8202))
  || (c =? 8232) || (c =? 8233) || (c =? 8239) || (c =? 8287)
  || (c =? 12288) || (c =? 65279).

Fixpoint skip_while (p : N -> bool) (s : jsstring) : jsstring :=
  match s with
  | [] => []
  | c :: r => if p c then skip_while p r else s
  end.

Definition trimStart (s : jsstring) : jsstring := skip_while is_white_space s.
Definition trimEnd (s : jsstring) : jsstring := rev (skip_while is_white_space (rev s)).

(** [s.trim()] *)
Definition trim (s : jsstring) : jsstring := trimEnd (trimStart s).

(** [s.slice(0, n)] *)
Definition slice0 (n : nat) (s : jsstring) : jsstring := take n s.

(** The character class [0-9]. *)
Definition is_digit (c : N) : bool := (48 <=? c) && (c <=? 57).

(** [s.replace(/[^0-9]/g, '')]: every code unit outside [0-9] is removed. *)
Definition replace_non_digits (s : jsstring) : jsstring := List.filter is_digit s.

Definition digit_value (c : N) : Z := Z.of_N c - 48.

(** The mathematical value of a run of decimal digits. *)
Definition decimal_value (ds : jsstring) : Z :=
  fold_left (fun acc c => (10 * acc + digit_value c)%Z) ds 0%Z.

Fixpoint span_digits (s : jsstring) : jsstring :=
  match s with
  | [] => []
  | c :: r => if is_digit c then c :: span_digits r else []
  end.

(** [parseInt(s, 10)]: leading white space is skipped, one sign is read,
    then the longest prefix of decimal digits; [None] is NaN. The result is
    the mathematical integer read ([sign * mathInt] in the definition of
    [parseInt]); it is the number JavaScript returns when it is below 2^53
    in absolute value. Beyond, JavaScript rounds it to a double or
    overflows to [Infinity]: see [Double.of_integer]. *)
Definition parseInt10 (s : jsstring) : option Z :=
  let s1 := trimStart s in
  let '(sign, s2) :=
    match s1 with
    | c :: r => if c =? 45 then ((-1)%Z, r)
                else if c =? 43 then (1%Z, r) else (1%Z, s1)
    | [] => (1%Z, s1)
    end in
  match span_digits s2 with
  | [] => None
  | ds => Some (sign * decimal_value ds)%Z
  end.

Fixpoint uint_units (u : Decimal.uint) : jsstring :=
  match u with
  | Decimal.Nil => []
  | Decimal.D0 r => 48 :: uint_units r
  | Decimal.D1 r => 49 :: uint_units r
  | Decimal.D2 r => 50 :: uint_units r
  | Decimal.D3 r => 51 :: uint_units r
  | Decimal.D4 r => 52 :: uint_units r
  | Decimal.D5 r => 53 :: uint_units r
  | Decimal.D6 r => 54 :: uint_units r
  | Decimal.D7 r => 55 :: uint_units r
  | Decimal.D8 r => 56 :: uint_units r
  | Decimal.D9 r => 57 :: uint_units r
  end.

(** [String(n)] and [n.toString()] of an integer-valued number below 2^53
    in absolute value: every digit is printed. (From 10^21 on JavaScript
    prints an exponent; the statements stay in the exact range.) *)
Definition Number_toString (z : Z) : jsstring :=
  if (z <? 0)%Z then 45 :: uint_units (N.to_uint (Z.to_N (- z)))
  else uint_units (N.to_uint (Z.to_N z)).

(** [s.padStart(targetLength, padString)] *)
Definition padStart (targetLength : nat) (padString s : jsstring) : jsstring :=
  if (targetLength <=? length s)%nat then s
  else match padString with
       | [] => s
       | _ :: _ =>
           let fillLen := (targetLength - length s)%nat in
           take fillLen (concat (repeat padString fillLen)) ++ s
       end.

(** The values the program handles: [null], [undefined], integer-valued
    numbers and strings. *)
Inductive value : Type :=
| VNull
| VUndefined
| VNum (z : Z)
| VStr (s : jsstring).

#[global] Instance value_eq_dec : EqDecision value.
Proof. solve_decision. Defined.

(** [String(v)] *)
Definition ToString (v : value) : jsstring :=
  match v with
  | VNull => str "null"
  | VUndefined => str "undefined"
  | VNum z => Number_toString z
  | VStr s => s
  end.

(** The integers every IEEE double represents exactly:
    [Number.MAX_SAFE_INTEGER] is 2^53 - 1. *)
Definition safe_integer (z : Z) : Prop := (Z.abs z < 2 ^ 53)%Z.

End JS.

Import JS.

(** ** Formatter (app.js, lines 13-23) *)

(** The formatter on exact integers: [n] is the integer the digits spell.
    This is what the code computes when that integer is below 2^53;
    [Double.formatRuntime] below has the overflow. *)
Definition formatRuntime (raw : value) : jsstring :=
  match raw with
  | VNull | VUndefined => []
  | _ =>
      let s := trim (ToString raw) in
      if negb (truthy s) then []
      else
        match parseInt10 (replace_non_digits s) with
        | None => []
        | Some n =>
            let h := (n / 60)%Z in
            let m := Z.rem n 60 in
            Number_toString h ++ str ":" ++ padStart 2 (str "0") (Number_toString m)
        end
  end.

(** The algorithm as the specification words it: strip the non-digits, read
    what is left as a base-10 integer, no integer gives the empty string,
    otherwise hours, a colon, and the minutes on two digits. *)
Definition zero_pad2 (m : Z) : jsstring :=
  if (m <? 10)%Z then str "0" ++ Number_toString m else Number_toString m.

Definition formatRuntime_spec (raw : value) : jsstring :=
  match List.filter is_digit (ToString raw) with
  | [] => []
  | ds =>
      let n := decimal_value ds in
      Number_toString (n / 60) ++ str ":" ++ zero_pad2 (n mod 60)
  end.


(** ** The document tree and the renderer (app.js, lines 72-156) *)

Module Dom.

(** A movie of a listing. [movie_synopsis] is [None] when the property is
    missing or [null]. *)
Record movie : Type := Movie {
  movie_id : value;
  movie_title : jsstring;
  movie_runtime : value;
  movie_synopsis : option jsstring
}.

(** A listing: the years of the object in [Object.keys] order, under each
    year its genres in [Object.keys] order, under each genre the array of
    movies. An object has each key once, so walking the pairs is walking
    the keys and reading [listing[year]] and [listing[year][genre]]. *)
Definition genres : Type := list (jsstring * list movie).
Definition listing : Type := list (jsstring * genres).

(** The detail of the [openEditModal] custom event. *)
Record edit_detail : Type := EditDetail {
  detail_id : value;
  detail_title : jsstring;
  detail_year : jsstring;
  detail_genre : jsstring;
  detail_synopsis : jsstring
}.

(** A click listener installed by the renderer: which closure it is and
    the variables the closure captured. *)
Inductive listener : Type :=
| RemoveClick (m : movie) (year genre : jsstring)
| EditClick (m : movie) (year genre : jsstring).

(** A node: a text node, or an element with its tag, the properties the
    script assigned ([className], [type], [style.marginLeft]), its click
    listeners and its children. *)
#[warnings="-register-all"]
Inductive node : Type :=
| Text (data : jsstring)
| Element (tagName : string) (props : list (string * jsstring))
          (listeners : list listener) (children : list node).

Definition createElement (tag : string) : node := Element tag [] [] [].

Definition childNodes (n : node) : list node :=
  match n with
  | Text _ => []
  | Element _ _ _ c => c
  end.

(** [n.k = v] for a reflected property. *)
Definition set_prop (k : string) (v : jsstring) (n : node) : node :=
  match n with
  | Text _ => n
  | Element t p l c => Element t (p ++ [(k, v)]) l c
  end.

(** [n.textContent = s]: the children become one text node, or none when
    [s] is empty. *)
Definition set_textContent (s : jsstring) (n : node) : node :=
  match n with
  | Text _ => n
  | Element t p l c => Element t p l (if truthy s then [Text s] else [])
  end.

(** [n.innerHTML = html], given the nodes [html] parses to. *)
Definition set_innerHTML (parsed : list node) (n : node) : node :=
  match n with
  | Text _ => n
  | Element t p l _ => Element t p l parsed
  end.

(** What the literal [<p>text</p>] parses to, for a text without markup. *)
Definition html_p (text : string) : node :=
  Element "p" [] [] [Text (str text)].

Definition appendChild (parent child : node) : node :=
  match parent with
  | Text _ => parent
  | Element t p l c => Element t p l (c ++ [child])
  end.

Definition addEventListener_click (h : listener) (n : node) : node :=
  match n with
  | Text _ => n
  | Element t p l c => Element t p (l ++ [h]) c
  end.

(** [movie.synopsis || ''] *)
Definition synopsis_or_empty (m : movie) : jsstring :=
  match movie_synopsis m with
  | Some s => s
  | None => []
  end.

(** [movie.synopsis && movie.synopsis.trim()], as a condition. *)
Definition has_synopsis (m : movie) : bool :=
  match movie_synopsis m with
  | Some s => truthy s && truthy (trim s)
  | None => false
  end.

(** The detail the edit button dispatches (line 135). *)
Definition edit_detail_of (m : movie) (year genre : jsstring) : edit_detail :=
  EditDetail (movie_id m) (movie_title m) year genre (synopsis_or_empty m).

(** The body of the innermost loop (lines 95-148): one [li]. *)
Definition render_movie (year genre : jsstring) (m : movie) : node :=
  let li := createElement "li" in
  let titleSpan := createElement "span" in
  let formatted := formatRuntime (movie_runtime m) in
  let titleSpan := set_textContent (movie_title m) titleSpan in
  let li := appendChild li titleSpan in
  let li :=
    if truthy formatted then
      let runtimeSpan := createElement "span" in
      let runtimeSpan := set_prop "className" (str "runtime") runtimeSpan in
      let runtimeSpan :=
        set_textContent (str " (" ++ formatted ++ str ")") runtimeSpan in
      appendChild li runtimeSpan
    else li in
  let removeBtn := createElement "button" in
  let removeBtn := set_prop "type" (str "button") removeBtn in
  let removeBtn := set_textContent (str "Remove") removeBtn in
  let removeBtn := set_prop "style.marginLeft" (str "8px") removeBtn in
  let removeBtn := addEventListener_click (RemoveClick m year genre) removeBtn in
  let li := appendChild li removeBtn in
  let editBtn := createElement "button" in
  let editBtn := set_prop "type" (str "button") editBtn in
  let editBtn := set_textContent (str "Edit") editBtn in
  let editBtn := set_prop "style.marginLeft" (str "6px") editBtn in
  let editBtn := addEventListener_click (EditClick m year genre) editBtn in
  let li := appendChild li editBtn in
  if has_synopsis m then
    let p := createElement "p" in
    let p := set_prop "className" (str "synopsis") p in
    let p := set_textContent (synopsis_or_empty m) p in
    appendChild li p
  else li.

(** The genre loop body (lines 87-151): one [div.genre]. *)
Definition render_genre (year genre : jsstring) (movies : list movie) : node :=
  let gEl := createElement "div" in
  let gEl := set_prop "className" (str "genre") gEl in
  let gh := createElement "h4" in
  let gh := set_textContent genre gh in
  let gEl := appendChild gEl gh in
  let ul := createElement "ul" in
  let ul := fold_left (fun ul m => appendChild ul (render_movie year genre m)) movies ul in
  appendChild gEl ul.

(** The year loop body (lines 80-154), up to the append to the container. *)
Definition render_year (year : jsstring) (gs : genres) : node :=
  let yEl := createElement "div" in
  let yEl := set_prop "className" (str "year") yEl in
  let h := createElement "h3" in
  let h := set_textContent year h in
  let yEl := appendChild yEl h in
  fold_left (fun yEl g => appendChild yEl (render_genre year (fst g) (snd g))) gs yEl.

Definition renderList (container : node) (l : listing) : node :=
  let container := set_innerHTML [] container in
  if (length (List.map fst l) =? 0)%nat then
    set_innerHTML [html_p "No movies in list yet."] container
  else
    fold_left (fun c y => appendChild c (render_year (fst y) (snd y))) l container.

(** The children [renderList] leaves in the container, said at once: the
    placeholder for a listing without years, else one block per year. *)
Definition rendered (l : listing) : list node :=
  match l with
  | [] => [html_p "No movies in list yet."]
  | _ :: _ => List.map (fun y => render_year (fst y) (snd y)) l
  end.

(** Queries on a tree, for the statements: is there, at or below a node,
    an element with this tag, or with this [className]. *)
Fixpoint has_tag (tag : string) (n : node) : bool :=
  match n with
  | Text _ => false
  | Element t _ _ c => bool_decide (t = tag) || existsb (has_tag tag) c
  end.

Definition className_is (cls : jsstring) (p : list (string * jsstring)) : bool :=
  existsb (fun kv => bool_decide (kv = ("className"%string, cls))) p.

Fixpoint has_class (cls : jsstring) (n : node) : bool :=
  match n with
  | Text _ => false
  | Element _ p _ c => className_is cls p || existsb (has_class cls) c
  end.

(** [n.textContent], read. *)
Fixpoint textContent (n : node) : jsstring :=
  match n with
  | Text s => s
  | Element _ _ _ c => concat (List.map textContent c)
  end.

End Dom.

Import Dom.

(** ** The page: state, environment and event handlers (lines 158-419) *)

Module App.

Inductive http_method : Type := GET | POST | DELETE.

(** A request handed to [fetch]. The query is kept as the pairs given to
    [URLSearchParams], the body as the object given to [JSON.stringify]. *)
Record request : Type := Request {
  req_method : http_method;
  req_path : string;
  req_query : list (string * jsstring);
  req_body : option (gmap string value)
}.

Inductive exn : Type :=
| TypeError
| ReferenceError
| FetchRejected.

(** What can be observed of a run, in the order it happened. [EvRefresh]
    marks an entry into [window.refreshList]. *)
Inductive event : Type :=
| EvRequest (r : request)
| EvSettled (r : request) (fulfilled : bool)
| EvConfirm (message : jsstring) (answer : bool)
| EvPrompt (message default : jsstring) (answer : option jsstring)
| EvAlert (message : jsstring)
| EvRefresh.

(** A row of the reply of [/api/lists]: an object with a [name], or an
    array whose first cell is the name. *)
Inductive row : Type :=
| RowObject (name : jsstring)
| RowArray (cells : list jsstring).

(** The environment. Every answer may depend on the whole history. *)
Record env : Type := Env {
  fetch_fulfils : list event -> request -> bool;
  listing_reply : list event -> jsstring -> listing;
  lists_reply : list event -> list row;
  confirm_answer : list event -> jsstring -> bool;
  prompt_answer : list event -> jsstring -> jsstring -> option jsstring;
  event_source_constructs : list event -> jsstring -> bool;
  error_text : exn -> jsstring
}.

(** The [select#list-select] element: the values of its options and the
    selected one. It is a drop-down (one option selected at a time). *)
Record select_el : Type := Select {
  options : list jsstring;
  selectedIndex : option nat
}.

(** [select.value], read: the value of the selected option, the empty
    string when none is selected. *)
Definition select_value (s : select_el) : jsstring :=
  match selectedIndex s with
  | Some i => default [] (options s !! i)
  | None => []
  end.

Fixpoint index_of (v : jsstring) (l : list jsstring) : option nat :=
  match l with
  | [] => None
  | x :: r => if jsstring_eqb x v then Some 0%nat else S <$> index_of v r
  end.

(** [select.value = v]: the first option with that value becomes the
    selected one; when there is none, no option is selected. *)
Definition set_select_value (v : jsstring) (s : select_el) : select_el :=
  Select (options s) (index_of v (options s)).

(** [select.innerHTML = ''] *)
Definition clear_options (s : select_el) : select_el := Select [] None.

(** [select.appendChild(opt)]: a drop-down with nothing selected selects
    its first option. *)
Definition append_option (v : jsstring) (s : select_el) : select_el :=
  Select (options s ++ [v])
         (match selectedIndex s with
          | Some i => Some i
          | None => Some 0%nat
          end).

(** The edit modal: [modal.style.display] and the values of its fields, as
    reading [.value] gives them. The synopsis textarea and its counter may
    be missing from the page. The title, year and genre fields are taken to
    give back the string assigned to them; a single-line text input does so
    for a string without line break, which the statements that read such a
    field after an assignment ask for. *)
Record modal_state : Type := Modal {
  modal_display : jsstring;
  modalTitle : jsstring;
  modalYear : jsstring;
  modalGenre : jsstring;
  modalSynopsis : option jsstring;
  modalSynopsisCounter : option jsstring
}.

Record context : Type := Context {
  ctx_id : value;
  origYear : jsstring;
  origGenre : jsstring
}.

(** An [EventSource] object: the list it was opened for, and whether it is
    still open ([close()] not yet called on it). *)
Record event_source : Type := EventSource {
  es_list_name : jsstring;
  es_open : bool
}.

(** The state of the page. [event_sources] holds every [EventSource]
    constructed so far and [es] refers into it; [intervals] counts the
    timers registered with [setInterval] (the script never clears one). *)
Record world : Type := World {
  list_select : option select_el;
  listContainer : node;
  modal : modal_state;
  editingContext : option context;
  es : option nat;
  event_sources : list event_source;
  intervals : nat;
  log : list event
}.

Definition set_list_select (x : option select_el) (w : world) : world :=
  World x (listContainer w) (modal w) (editingContext w) (es w)
        (event_sources w) (intervals w) (log w).
Definition set_listContainer (x : node) (w : world) : world :=
  World (list_select w) x (modal w) (editingContext w) (es w)
        (event_sources w) (intervals w) (log w).
Definition set_modal (x : modal_state) (w : world) : world :=
  World (list_select w) (listContainer w) x (editingContext w) (es w)
        (event_sources w) (intervals w) (log w).
Definition set_editingContext (x : option context) (w : world) : world :=
  World (list_select w) (listContainer w) (modal w) x (es w)
        (event_sources w) (intervals w) (log w).
Definition set_es (x : option nat) (w : world) : world :=
  World (list_select w) (listContainer w) (modal w) (editingContext w) x
        (event_sources w) (intervals w) (log w).
Definition set_event_sources (x : list event_source) (w : world) : world :=
  World (list_select w) (listContainer w) (modal w) (editingContext w) (es w)
        x (intervals w) (log w).
Definition set_intervals (x : nat) (w : world) : world :=
  World (list_select w) (listContainer w) (modal w) (editingContext w) (es w)
        (event_sources w) x (log w).
Definition set_log (x : list event) (w : world) : world :=
  World (list_select w) (listContainer w) (modal w) (editingContext w) (es w)
        (event_sources w) (intervals w) x.

(** [select ? select.value : 'default'], for [select] the element found
    by [document.getElementById('list-select')]. *)
Definition list_name_of (select : option select_el) : jsstring :=
  match select with
  | Some s => select_value s
  | None => str "default"
  end.

Definition selected_list_name (w : world) : jsstring :=
  list_name_of (list_select w).

(** *** The monad of handlers: state and exceptions *)

Inductive result (A : Type) : Type :=
| Ok (a : A)
| Throw (e : exn).
Arguments Ok {A} a.
Arguments Throw {A} e.

Definition M (A : Type) : Type := world -> result A * world.

#[global] Instance M_ret : MRet M := fun A a w => (Ok a, w).
#[global] Instance M_bind : MBind M := fun A B f m w =>
  match m w with
  | (Ok a, w') => f a w'
  | (Throw e, w') => (Throw e, w')
  end.

Definition get : M world := fun w => (Ok w, w).
Definition modify (f : world -> world) : M unit := fun w => (Ok tt, f w).
Definition throw {A : Type} (e : exn) : M A := fun w => (Throw e, w).

(** [try { m } catch (e) { h e }] *)
Definition try_catch {A : Type} (m : M A) (h : exn -> M A) : M A := fun w =>
  match m w with
  | (Ok a, w') => (Ok a, w')
  | (Throw e, w') => h e w'
  end.

(** A call whose promise nobody awaits: a rejection goes unhandled. *)
Definition detached (m : M unit) : M unit := try_catch m (fun _ => mret tt).

Definition emit (e : event) : M unit :=
  modify (fun w => set_log (log w ++ [e]) w).

(** The state a handler leaves, and what it logged. *)
Definition exec {A : Type} (m : M A) (w : world) : world := snd (m w).
Definition outcome {A : Type} (m : M A) (w : world) : result A := fst (m w).

Section Handlers.

Variable E : env.

(** *** The network boundary (lines 25-70) *)

(** [await fetch(r)] and, in the wrappers, [res.json()]: the request goes
    out, later the promise settles; a rejection is thrown at the [await]. *)
Definition fetch (r : request) : M unit :=
  emit (EvRequest r) ;;
  w ← get ;
  let fulfilled := fetch_fulfils E (log w) r in
  emit (EvSettled r fulfilled) ;;
  if fulfilled then mret tt else throw FetchRejected.

Definition post (path : string) (body : gmap string value) : request :=
  Request POST path [] (Some body).

Definition addMovie (id : value) (list_name : jsstring) : M unit :=
  fetch (post "/api/add" (<["list_name" := VStr list_name]> {["id" := id]})).

Definition getList (list_name : jsstring) : M listing :=
  fetch (Request GET "/api/list" [("list_name"%string, list_name)] None) ;;
  w ← get ;
  mret (listing_reply E (log w) list_name).

Definition getLists : M (list row) :=
  fetch (Request GET "/api/lists" [] None) ;;
  w ← get ;
  mret (lists_reply E (log w)).

Definition createList (name : jsstring) : M unit :=
  fetch (post "/api/lists" {["name" := VStr name]}).

Definition deleteList (name : jsstring) : M unit :=
  fetch (Request DELETE "/api/lists" [] (Some {["name" := VStr name]})).

Definition renameList (oldName newName : jsstring) : M unit :=
  fetch (post "/api/lists/rename"
              (<["new" := VStr newName]> {["old" := VStr oldName]})).

(** *** Dialogs *)

Definition confirm (message : jsstring) : M bool :=
  w ← get ;
  let a := confirm_answer E (log w) message in
  emit (EvConfirm message a) ;;
  mret a.

Definition prompt (message default : jsstring) : M (option jsstring) :=
  w ← get ;
  let a := prompt_answer E (log w) message default in
  emit (EvPrompt message default a) ;;
  mret a.

Definition alert (message : jsstring) : M unit := emit (EvAlert message).

(** *** The drop-down *)

(** [const select = document.getElementById('list-select');
     const list_name = select ? select.value : 'default';] *)
Definition list_name_or_default : M jsstring :=
  w ← get ;
  mret (selected_list_name w).

(** [select.value], with [select] possibly [null]. *)
Definition select_get_value : M jsstring :=
  w ← get ;
  match list_select w with
  | Some s => mret (select_value s)
  | None => throw TypeError
  end.

(** An update of the drop-down, with [select] possibly [null]. *)
Definition select_update (f : select_el -> select_el) : M unit :=
  w ← get ;
  match list_select w with
  | Some s => modify (set_list_select (Some (f s)))
  | None => throw TypeError
  end.

(** *** Refresh (lines 178-188) *)

Definition refreshList : M unit :=
  emit EvRefresh ;;
  list_name ← list_name_or_default ;
  if negb (truthy list_name) then
    modify (fun w =>
      set_listContainer
        (set_innerHTML [html_p "Please pick a list from the dropdown menu."]
                       (listContainer w)) w)
  else
    l ← getList list_name ;
    modify (fun w => set_listContainer (renderList (listContainer w) l) w).

(** [r.name || (Array.isArray(r) ? r[0] : r[0])] *)
Definition row_name (r : row) : value :=
  match r with
  | RowObject n => if truthy n then VStr n else VUndefined
  | RowArray [] => VUndefined
  | RowArray (c :: _) => VStr c
  end.

(** Lines 190-208. *)
Definition refreshListsDropdown : M unit :=
  lists ← getLists ;
  select_update clear_options ;;
  select_update (append_option []) ;;
  let names :=
    List.filter (fun n => negb (bool_decide (n = VStr (str "default"))))
                (List.map row_name lists) in
  select_update
    (fun s => fold_left (fun s n => append_option (ToString n) s) names s).

(** *** Live updates (lines 211-234) *)

Definition close_source (s : event_source) : event_source :=
  EventSource (es_list_name s) false.

(** [try { es.close(); } catch (e) {}] on the object [es] refers to. *)
Definition es_close (i : nat) : M unit :=
  modify (fun w => set_event_sources (alter close_source i (event_sources w)) w).

(** [new EventSource('/stream?list_name=' + encodeURIComponent(list_name))]:
    a new open object, or an exception where the constructor is missing or
    refuses. *)
Definition new_EventSource (list_name : jsstring) : M nat :=
  w ← get ;
  if event_source_constructs E (log w) list_name then
    modify (set_event_sources (event_sources w ++ [EventSource list_name true])) ;;
    mret (length (event_sources w))
  else throw ReferenceError.

(** [setInterval(() => { window.refreshList(); }, 5000)]; the handle it
    returns is dropped. *)
Definition setInterval_refresh : M unit :=
  modify (fun w => set_intervals (S (intervals w)) w).

Definition openStreamFor (list_name : jsstring) : M unit :=
  (w ← get ;
   match es w with
   | Some i => es_close i ;; modify (set_es None)
   | None => mret tt
   end) ;;
  try_catch
    (i ← new_EventSource list_name ;
     modify (set_es (Some i)))
    (fun _ =>
       (w ← get ;
        match es w with
        | Some i => es_close i
        | None => mret tt
        end) ;;
       modify (set_es None) ;;
       setInterval_refresh).

(** [es.onmessage] and the timer callback: [window.refreshList()]. *)
Definition es_onmessage : M unit := detached refreshList.
Definition interval_tick : M unit := detached refreshList.

(** *** Remove and edit buttons of a rendered movie (lines 115-137) *)

Definition quote : jsstring := [34].

Definition remove_question (m : movie) (year genre : jsstring) : jsstring :=
  str "Remove " ++ quote ++ movie_title m ++ quote ++ str " from " ++ genre
  ++ str " (" ++ year ++ str ")?".

Definition removeBtn_click (m : movie) (year genre : jsstring) : M unit :=
  yes ← confirm (remove_question m year genre) ;
  if negb yes then mret tt
  else
    list_name ← list_name_or_default ;
    fetch (post "/api/remove"
                (<["list_name" := VStr list_name]>
                 (<["genre" := VStr genre]>
                  (<["year" := VStr year]> {["id" := movie_id m]})))) ;;
    refreshList.

(** The [openEditModal] listener (lines 285-296). *)
Definition counter_text (s : jsstring) : jsstring :=
  str "Characters: " ++ Number_toString (Z.of_nat (length s)) ++ str "/250".

(** What [modalSynopsis.value] reads after an assignment: the getter of a
    textarea normalises the line breaks of the string it was given, CR LF
    and a lone CR both reading as LF. *)
Fixpoint normalize_newlines (s : jsstring) : jsstring :=
  match s with
  | [] => []
  | c :: r =>
      if c =? 13 then
        match r with
        | d :: r' =>
            if d =? 10 then 10 :: normalize_newlines r'
            else 10 :: normalize_newlines r
        | [] => [10]
        end
      else c :: normalize_newlines r
  end.

(** The synopsis field holds the value as [modalSynopsis.value] reads it,
    which is also what the counter measures. *)
Definition openEditModal (d : edit_detail) : M unit :=
  modify (fun w =>
    let md := modal w in
    let synopsis :=
      match modalSynopsis md with
      | Some _ => Some (normalize_newlines (detail_synopsis d))
      | None => None
      end in
    let counter :=
      match modalSynopsis md, modalSynopsisCounter md with
      | Some _, Some _ =>
          Some (counter_text (normalize_newlines (detail_synopsis d)))
      | _, c => c
      end in
    set_modal (Modal (str "flex") (detail_title d) (detail_year d)
                     (detail_genre d) synopsis counter)
      (set_editingContext
         (Some (Context (detail_id d) (detail_year d) (detail_genre d))) w)).

Definition editBtn_click (m : movie) (year genre : jsstring) : M unit :=
  openEditModal (edit_detail_of m year genre).

(** *** The add button of a search result (lines 261-266) *)

Definition addBtn_click (id : value) : M unit :=
  list_name ← list_name_or_default ;
  addMovie id list_name ;;
  detached refreshList.

(** *** The edit modal (lines 298-342) *)

Definition hide_modal (md : modal_state) : modal_state :=
  Modal (str "none") (modalTitle md) (modalYear md) (modalGenre md)
        (modalSynopsis md) (modalSynopsisCounter md).

Definition modalCancel_click : M unit :=
  modify (fun w => set_editingContext None (set_modal (hide_modal (modal w)) w)).

(** [v && v.trim()] *)
Definition and_trim (v : jsstring) : jsstring :=
  if truthy v then trim v else v.

(** Lines 310-323: the object handed to [JSON.stringify]. *)
Definition save_payload (ctx : context) (md : modal_state) (list_name : jsstring)
  : gmap string value :=
  let payload : gmap string value := {["id" := ctx_id ctx]} in
  let newTitle := and_trim (modalTitle md) in
  let newYear := and_trim (modalYear md) in
  let newGenre := and_trim (modalGenre md) in
  let newSynopsisRaw :=
    match modalSynopsis md with
    | Some v => v
    | None => []
    end in
  let newSynopsis : option jsstring :=
    if truthy newSynopsisRaw then Some (slice0 250 (trim newSynopsisRaw))
    else None in
  let payload :=
    if truthy newTitle then <["new_title" := VStr newTitle]> payload else payload in
  let payload :=
    if truthy newYear then <["new_year" := VStr newYear]> payload else payload in
  let payload :=
    if truthy newGenre then <["new_genre" := VStr newGenre]> payload else payload in
  let payload :=
    match newSynopsis with
    | Some s => <["new_synopsis" := VStr s]> payload
    | None => payload
    end in
  <["list_name" := VStr list_name]> payload.

Definition modalSave_click : M unit :=
  w ← get ;
  match editingContext w with
  | None => mret tt
  | Some ctx =>
      list_name ← list_name_or_default ;
      fetch (post "/api/update" (save_payload ctx (modal w) list_name)) ;;
      modify (fun w => set_editingContext None (set_modal (hide_modal (modal w)) w)) ;;
      refreshList
  end.

(** The [input] listener of the synopsis textarea (lines 338-342): the
    user's new text, then the counter. *)
Definition modalSynopsis_input (text : jsstring) : M unit :=
  modify (fun w =>
    let md := modal w in
    match modalSynopsis md with
    | None => w
    | Some _ =>
        set_modal (Modal (modal_display md) (modalTitle md) (modalYear md)
                         (modalGenre md) (Some text)
                         (match modalSynopsisCounter md with
                          | Some _ => Some (counter_text text)
                          | None => None
                          end)) w
    end).

(** *** Clear (lines 345-355) *)

Definition clearBtn_click : M unit :=
  yes ← confirm (str "Clear entire saved list? This cannot be undone.") ;
  if negb yes then mret tt
  else
    list_name ← list_name_or_default ;
    fetch (post "/api/clear" {["list_name" := VStr list_name]}) ;;
    refreshList.

(** *** List management (lines 357-413) *)

Definition newBtn_click : M unit :=
  answer ← prompt (str "New list name:") [] ;
  match answer with
  | None => mret tt
  | Some name =>
      if negb (truthy name) then mret tt
      else
        try_catch
          (createList (trim name) ;;
           refreshListsDropdown ;;
           select_update (set_select_value (trim name)) ;;
           refreshList ;;
           openStreamFor (trim name))
          (fun err => alert (str "Could not create list: " ++ error_text E err))
  end.

Definition renameBtn_click : M unit :=
  oldName ← select_get_value ;
  if negb (truthy oldName) || jsstring_eqb oldName (str "default") then
    alert (str "Cannot rename default list")
  else
    answer ← prompt (str "Rename list to:") oldName ;
    match answer with
    | None => mret tt
    | Some newName =>
        if negb (truthy newName) || jsstring_eqb newName oldName then mret tt
        else
          renameList oldName (trim newName) ;;
          refreshListsDropdown ;;
          select_update (set_select_value (trim newName)) ;;
          refreshList
    end.

Definition delete_question (name : jsstring) : jsstring :=
  str "Delete list " ++ name ++ str "? This will remove all movies in that list.".

Definition deleteBtn_click : M unit :=
  name ← select_get_value ;
  if negb (truthy name) || jsstring_eqb name (str "default") then
    alert (str "Cannot delete default list")
  else
    yes ← confirm (delete_question name) ;
    if negb yes then mret tt
    else
      deleteList name ;;
      refreshListsDropdown ;;
      select_update (set_select_value []) ;;
      refreshList.

Definition select_change : M unit :=
  refreshList ;;
  v ← select_get_value ;
  if negb (truthy v) then
    w ← get ;
    match es w with
    | Some i => es_close i ;; modify (set_es None)
    | None => mret tt
    end
  else openStreamFor v.

(** The initial load (lines 416-418). *)
Definition initial_load : M unit :=
  refreshListsDropdown ;;
  select_update (set_select_value []) ;;
  refreshList.

(** *** What the user and the server can do to the page *)

Inductive action : Type :=
| PickOption (i : nat)
| ClickNew
| ClickRename
| ClickDelete
| ClickRemove (m : movie) (year genre : jsstring)
| ClickEdit (m : movie) (year genre : jsstring)
| ClickAdd (id : value)
| ClickSave
| ClickCancel
| ClickClear
| ServerPush
| TimerTick.

(** The user picks the [i]-th entry of the drop-down (entry 0 is
    'Pick a List'): the browser selects it and fires [change]. *)
Definition pick_option (i : nat) : M unit :=
  select_update (fun s =>
    if (i <? length (options s))%nat then Select (options s) (Some i) else s) ;;
  select_change.

Definition perform (a : action) : M unit :=
  match a with
  | PickOption i => pick_option i
  | ClickNew => newBtn_click
  | ClickRename => renameBtn_click
  | ClickDelete => deleteBtn_click
  | ClickRemove m y g => removeBtn_click m y g
  | ClickEdit m y g => editBtn_click m y g
  | ClickAdd id => addBtn_click id
  | ClickSave => modalSave_click
  | ClickCancel => modalCancel_click
  | ClickClear => clearBtn_click
  | ServerPush => es_onmessage
  | TimerTick => interval_tick
  end.

(** A sequence of actions, each handler running to its end; an exception
    ends the handler it is thrown in and nothing else. *)
Definition run (acts : list action) (w : world) : world :=
  fold_left (fun w a => exec (perform a) w) acts w.

End Handlers.

(** The live-update resources of a state. *)
Definition open_sources (w : world) : nat :=
  length (List.filter es_open (event_sources w)).

Definition active_channels (w : world) : nat :=
  (open_sources w + intervals w)%nat.

(** The requests a log shows: the network calls that were issued. *)
Definition sent_requests (l : list event) : list request :=
  omap (fun e => match e with EvRequest r => Some r | _ => None end) l.

(** What a run from [w] to [w'] added to the log. *)
Definition new_events (w w' : world) : list event :=
  drop (length (log w)) (log w').

(** Among the events [d] of one handler, every entry into Refresh comes
    after the promise of request [r] was fulfilled. *)
Definition refresh_only_after (r : request) (d : list event) : Prop :=
  forall pre post, d = pre ++ EvRefresh :: post -> In (EvSettled r true) pre.

(** The Refresh of a mutation path: never before the response to the
    mutation request [r], and there once that response has arrived. *)
Definition refresh_follows (r : request) (d : list event) : Prop :=
  refresh_only_after r d
  /\ (In (EvSettled r true) d -> In EvRefresh d).

(** The same for the list operations, which reload the drop-down (request
    [lists]) between the mutation and the Refresh. *)
Definition refresh_follows_both (r lists : request) (d : list event) : Prop :=
  refresh_only_after r d
  /\ refresh_only_after lists d
  /\ (In (EvSettled r true) d -> In (EvSettled lists true) d -> In EvRefresh d).

(** The paragraph Refresh shows when no list is selected. *)
Definition pick_a_list : node :=
  html_p "Please pick a list from the dropdown menu.".

Definition lists_request : request := Request GET "/api/lists" [] None.

Definition list_request (list_name : jsstring) : request :=
  Request GET "/api/list" [("list_name"%string, list_name)] None.

(** A handler run from [w] that does not fail, sends exactly the requests
    [reqs], and leaves in the container what the renderer made of a
    listing, which is not the 'pick a list' paragraph. *)
Definition runs_and_renders (m : M unit) (w : world) (reqs : list request) : Prop :=
  outcome m w = Ok tt
  /\ sent_requests (new_events w (exec m w)) = reqs
  /\ (exists l, listContainer (exec m w) = renderList (listContainer w) l)
  /\ childNodes (listContainer (exec m w)) <> [pick_a_list].

(** A computation that leaves the subscription alone: [es] and the
    [EventSource] objects are after it what they were before. *)
Definition keeps_streams {A : Type} (m : M A) : Prop :=
  forall w, es (snd (m w)) = es w
            /\ event_sources (snd (m w)) = event_sources w.

(** [es] refers to every source that is still open. *)
Definition es_consistent (w : world) : Prop :=
  forall i s, event_sources w !! i = Some s -> es_open s = true -> es w = Some i.

(** Sources that are all closed. *)
Definition all_closed (l : list event_source) : Prop :=
  forall j s, l !! j = Some s -> es_open s = false.

(** A computation that keeps [es] referring to every open source. *)
Definition keeps_consistency {A : Type} (m : M A) : Prop :=
  forall w, es_consistent w -> es_consistent (snd (m w)).

(** *** The edit payload, as the specification words it and as built *)

Definition synopsis_field (md : modal_state) : jsstring :=
  default [] (modalSynopsis md).

(** A text field: present with its trimmed value exactly when that value
    is not empty. *)
Definition trimmed_entry (v : jsstring) : option value :=
  if truthy (trim v) then Some (VStr (trim v)) else None.

(** The specification's payload: the synopsis is present exactly when it is
    not empty after trimming. *)
Definition payload_as_specified (ctx : context) (md : modal_state)
    (list_name : jsstring) (p : gmap string value) : Prop :=
  p !! "id" = Some (ctx_id ctx)
  /\ p !! "list_name" = Some (VStr list_name)
  /\ p !! "new_title" = trimmed_entry (modalTitle md)
  /\ p !! "new_year" = trimmed_entry (modalYear md)
  /\ p !! "new_genre" = trimmed_entry (modalGenre md)
  /\ p !! "new_synopsis" =
       (if truthy (trim (synopsis_field md))
        then Some (VStr (slice0 250 (trim (synopsis_field md))))
        else None).

(** The amended payload: the synopsis is present exactly when the field is
    not empty as typed, before any trimming. *)
Definition payload_as_built (ctx : context) (md : modal_state)
    (list_name : jsstring) (p : gmap string value) : Prop :=
  p !! "id" = Some (ctx_id ctx)
  /\ p !! "list_name" = Some (VStr list_name)
  /\ p !! "new_title" = trimmed_entry (modalTitle md)
  /\ p !! "new_year" = trimmed_entry (modalYear md)
  /\ p !! "new_genre" = trimmed_entry (modalGenre md)
  /\ p !! "new_synopsis" =
       (if truthy (synopsis_field md)
        then Some (VStr (slice0 250 (trim (synopsis_field md))))
        else None).

End App.

Import App.

(** ** Sample pages and environments, for the concrete runs *)

Module Sample.

Definition heat : movie :=
  Movie (VNum 7) (str "Heat") (VNum 170) (Some (str "A heist goes wrong.")).

Definition a_listing : listing := [(str "1995", [(str "Crime", [heat])])].

(** A server that answers every request, a user who confirms and types
    [typed] at every prompt ([None]: cancels it), and a browser with or
    without [EventSource]. *)
Definition environment (has_event_source : bool) (typed : option jsstring) : env :=
  Env (fun _ _ => true)
      (fun _ _ => a_listing)
      (fun _ => [RowObject (str "Favorites"); RowObject (str "Watchlist");
                 RowObject (str "default")])
      (fun _ _ => true)
      (fun _ _ _ => typed)
      (fun _ _ => has_event_source)
      (fun _ => str "failed").

Definition with_event_source : env := environment true None.
Definition without_event_source : env := environment false None.

(** The drop-down after the initial load, with entry [i] selected. *)
Definition dropdown (i : nat) : select_el :=
  Select [[]; str "Favorites"; str "Watchlist"] (Some i).

Definition closed_modal : modal_state :=
  Modal (str "none") [] [] [] (Some []) (Some []).

(** A freshly loaded page with the given drop-down (or none). *)
Definition page (select : option select_el) : world :=
  World select (createElement "div") closed_modal None None [] 0 [].

Definition heat_context : context :=
  Context (VNum 7) (str "1995") (str "Crime").

(** The fields of the modal with only white space typed as synopsis. *)
Definition blank_synopsis : modal_state :=
  Modal (str "flex") (str "Heat") (str "1995") (str "Crime")
        (Some (str "  ")) (Some (str "Characters: 2/250")).

(** The edit modal open on [heat], with the given field values. *)
Definition editing (title year genre synopsis : jsstring) : world :=
  set_editingContext (Some (Context (VNum 7) (str "1995") (str "Crime")))
    (set_modal (Modal (str "flex") title year genre (Some synopsis) (Some []))
       (page (Some (dropdown 1)))).

(** The same page while the user edits [heat], synopsis left blank. *)
Definition editing_heat : world :=
  set_editingContext (Some heat_context)
    (set_modal blank_synopsis (page (Some (dropdown 1)))).

(** A page whose markup has no drop-down, the modal open on [heat]. *)
Definition without_dropdown : world := set_list_select None editing_heat.

(** A user who types the given name at every prompt. *)
Definition typing (name : string) : env := environment true (Some (str name)).

End Sample.

(** ** Reading a rendered tree back *)

Module Outline.

(** The text of the first child: the heading of a block, the title of an
    entry. *)
Definition first_text (n : node) : jsstring :=
  match childNodes n with
  | h :: _ => textContent h
  | [] => []
  end.

(** A genre block: its heading and, from the list that follows it, the
    titles of the entries. *)
Definition read_genre (gEl : node) : jsstring * list jsstring :=
  (first_text gEl,
   match childNodes gEl with
   | [_; ul] => List.map first_text (childNodes ul)
   | _ => []
   end).

(** A year block: its heading and the genre blocks after it. *)
Definition read_year (yEl : node) : jsstring * list (jsstring * list jsstring) :=
  (first_text yEl, List.map read_genre (tail (childNodes yEl))).

Definition read_listing (container : node)
  : list (jsstring * list (jsstring * list jsstring)) :=
  List.map read_year (childNodes container).

(** Years, genres and titles of a listing, in its order. *)
Definition outline_of (l : listing)
  : list (jsstring * list (jsstring * list jsstring)) :=
  List.map (fun y =>
              (fst y, List.map (fun g => (fst g, List.map movie_title (snd g)))
                               (snd y))) l.

(** Every click listener at or below a node, in document order. *)
Fixpoint listeners_of (n : node) : list listener :=
  match n with
  | Text _ => []
  | Element _ _ ls c => ls ++ concat (List.map listeners_of c)
  end.

(** The listeners a listing calls for: for each movie, in order, its
    remove and its edit button, bound to the movie and to the year and
    genre it is listed under. *)
Definition listing_listeners (l : listing) : list listener :=
  flat_map (fun y =>
    flat_map (fun g =>
      flat_map (fun m => [RemoveClick m (fst y) (fst g); EditClick m (fst y) (fst g)])
               (snd g))
      (snd y)) l.

(** How many elements with this tag there are at or below a node. *)
Fixpoint count_tag (tag : string) (n : node) : nat :=
  match n with
  | Text _ => 0
  | Element t _ _ c =>
      (if bool_decide (t = tag) then 1 else 0)
      + list_sum (List.map (count_tag tag) c)
  end.

Definition movies_of (l : listing) : list movie :=
  flat_map (fun y => flat_map snd (snd y)) l.

End Outline.

Import Outline.

(** ** Comparing two states of the page *)

(** Nothing changed but the log. *)
Definition same_but_log (w w' : world) : Prop := set_log (log w) w' = w.

(** Nothing changed but the log and the content of the list container. *)
Definition same_but_view (w w' : world) : Prop :=
  set_listContainer (listContainer w) (set_log (log w) w') = w.

(** The drop-down as [refreshListsDropdown] rebuilds it from the rows of
    [/api/lists]: the placeholder, then every name but 'default'. *)
Definition dropdown_of (rows : list row) : select_el :=
  Select ([] :: List.map ToString
                  (List.filter (fun n => negb (bool_decide (n = VStr (str "default"))))
                               (List.map row_name rows)))
         (Some 0%nat).

(** The properties an update payload can have. *)
Definition payload_keys : list string :=
  ["id"; "list_name"; "new_title"; "new_year"; "new_genre"; "new_synopsis"]%string.

(** The request of the update of a movie. *)
Definition update_request (ctx : context) (md : modal_state) (list_name : jsstring)
  : request :=
  post "/api/update" (save_payload ctx md list_name).

(** The sources once the one [es] refers to, if any, is closed. *)
Definition closed_sources (w : world) : list event_source :=
  match es w with
  | Some i => alter close_source i (event_sources w)
  | None => event_sources w
  end.

(** ** The search form (app.js, lines 1-7 and 236-282) *)

Module Search.

(** One result of [/api/search]. *)
Record item : Type := Item {
  item_id : value;
  item_title : jsstring;
  item_start_year : value;
  item_runtime : value;
  item_genres : value
}.

(** What [/api/search] answers: an object with an [error], or an array
    of results. *)
Inductive reply : Type :=
| ErrorObject (error : jsstring)
| Items (items : list item).

(** Truthiness of a value. *)
Definition value_truthy (v : value) : bool :=
  match v with
  | VNull | VUndefined => false
  | VNum z => negb (z =? 0)%Z
  | VStr s => truthy s
  end.

(** [`${v || fallback}`] *)
Definition or_else (v : value) (fallback : jsstring) : jsstring :=
  if value_truthy v then ToString v else fallback.

(** A node of the results: as in the list container, with the ids the
    click listeners of the add buttons are bound to. *)
#[warnings="-register-all"]
Inductive rnode : Type :=
| RText (data : jsstring)
| RElement (tagName : string) (props : list (string * jsstring))
           (add_clicks : list value) (children : list rnode).

(** The results container: the markup last assigned to [innerHTML], as
    written, and the nodes appended since. *)
Record results : Type := Results {
  markup : jsstring;
  appended : list rnode
}.

Definition set_results_html (html : jsstring) : results := Results html [].

Definition results_append (r : results) (n : rnode) : results :=
  Results (markup r) (appended r ++ [n]).

Definition rappend (parent child : rnode) : rnode :=
  match parent with
  | RText _ => parent
  | RElement t p a c => RElement t p a (c ++ [child])
  end.

Definition rset_text (s : jsstring) (n : rnode) : rnode :=
  match n with
  | RText _ => n
  | RElement t p a _ => RElement t p a (if truthy s then [RText s] else [])
  end.

Definition ellipsis : jsstring := [8230].
Definition em_dash : jsstring := [8212].

Definition searching_html : jsstring := str "<p>Searching" ++ ellipsis ++ str "</p>".

Definition no_results_html : jsstring := str "<p>No results found.</p>".

(** [`<p class="error">${items.error}</p>`] *)
Definition error_html (message : jsstring) : jsstring :=
  str "<p class=" ++ quote ++ str "error" ++ quote ++ str ">" ++ message
  ++ str "</p>".

(** Lines 1-7: the request of a search. [URLSearchParams] gets [title]
    and [year] only when they are not empty. *)
Definition search_request (title year : jsstring) : request :=
  Request GET "/api/search"
          ((if truthy title then [("title"%string, title)] else [])
           ++ (if truthy year then [("year"%string, year)] else []))
          None.

(** Line 257: the text of a result. *)
Definition result_text (it : item) : jsstring :=
  let formatted := formatRuntime (item_runtime it) in
  let runtimeText :=
    if truthy formatted then str " " ++ em_dash ++ str " " ++ formatted else [] in
  item_title it ++ str " (" ++ or_else (item_start_year it) (str "Unknown")
  ++ str ")" ++ runtimeText ++ str " " ++ em_dash ++ str " "
  ++ or_else (item_genres it) [].

(** Lines 254-268: one [li], its text and its add button. *)
Definition result_entry (it : item) : rnode :=
  let li := RElement "li" [] [] [] in
  let li := rset_text (result_text it) li in
  let btn := RElement "button" [] [] [] in
  let btn :=
    match btn with
    | RElement t p a c => RElement t (p ++ [("type"%string, str "button")]) a c
    | RText _ => btn
    end in
  let btn := rset_text (str "Add") btn in
  let btn :=
    match btn with
    | RElement t p a c => RElement t p (a ++ [item_id it]) c
    | RText _ => btn
    end in
  rappend li btn.

Definition search_note : rnode :=
  RElement "p" [("className"%string, str "search-note")] []
    [RText (str "For more accurate results, please include a year in your search.")].

(** Lines 240-281: what the handler makes of the reply. [year_now] is the
    value of the year field when the reply has arrived. *)
Definition show_results (year_now : jsstring) (answer : reply) : results :=
  match answer with
  | ErrorObject message =>
      if truthy message then set_results_html (error_html message)
      else set_results_html no_results_html
  | Items [] => set_results_html no_results_html
  | Items items =>
      let r := set_results_html [] in
      let ul := RElement "ul" [] [] [] in
      let ul := fold_left (fun ul it => rappend ul (result_entry it)) items ul in
      let r := results_append r ul in
      if negb (truthy year_now) then results_append r search_note else r
  end.

(** The submit handler: the results show 'Searching...', the request goes
    out with the values of the two fields, and the reply [answer], when
    there is one, is shown. *)
Definition form_submit (E : env) (title year year_now : jsstring) (answer : reply)
    (w : world) : result unit * world * results :=
  let searching := set_results_html searching_html in
  match fetch E (search_request title year) w with
  | (Ok _, w') => (Ok tt, w', show_results year_now answer)
  | (Throw e, w') => (Throw e, w', searching)
  end.

(** The ids the add buttons at or below a node are bound to, in document
    order, and the texts of the entries of a results list. *)
Fixpoint add_ids (n : rnode) : list value :=
  match n with
  | RText _ => []
  | RElement _ _ a c => a ++ concat (List.map add_ids c)
  end.

Definition entry_text (n : rnode) : jsstring :=
  match n with
  | RElement _ _ _ (RText s :: _) => s
  | _ => []
  end.

Definition rchildren (n : rnode) : list rnode :=
  match n with
  | RText _ => []
  | RElement _ _ _ c => c
  end.

End Search.

(** ** More sample environments and data *)

Module Scene.

(** A server that cannot be reached, with a user who confirms and types
    [typed] at every prompt. *)
Definition offline (typed : option jsstring) : env :=
  Env (fun _ _ => false)
      (fun _ _ => [])
      (fun _ => [])
      (fun _ _ => true)
      (fun _ _ _ => typed)
      (fun _ _ => true)
      (fun _ => str "Failed to fetch").

(** A server that answers, with a user who declines every confirmation. *)
Definition declining : env :=
  Env (fun _ _ => true)
      (fun _ _ => Sample.a_listing)
      (fun _ => [RowObject (str "Favorites")])
      (fun _ _ => false)
      (fun _ _ _ => None)
      (fun _ _ => true)
      (fun _ => str "failed").

Definition favorites_page : world := Sample.page (Some (Sample.dropdown 1)).

Definition two_results : list Search.item :=
  [Search.Item (VStr (str "tt0113277")) (str "Heat") (VNum 1995) (VNum 170)
               (VStr (str "Crime"));
   Search.Item (VStr (str "tt0093058")) (str "Heat") VNull VNull VNull].

End Scene.

(** ** Numbers outside the exact range *)

(** The formatter above computes on the mathematical integer its input
    spells, which is what a JavaScript number holds as long as that integer
    is below 2^53. [Double] follows the same lines of [app.js] with the
    number [parseInt] really returns, as far as this embedding has it: the
    integer itself in the exact range, [Infinity] for a numeral beyond every
    finite double, and no result where [parseInt] rounds. *)
Module Double.

Inductive number : Type :=
| Exact (z : Z)
| Infinity
| NaN.

Definition exact (z : Z) : bool := (Z.abs z <? 2 ^ 53)%Z.

(** The Number value of the mathematical integer [z]. An integer below 2^53
    in absolute value is a double. The largest finite double is below
    1.8 * 10^308, so an integer from 10^309 on has the value [Infinity]
    (also when only its first twenty digits are read, which [parseInt] may
    do). In between the integer is rounded to 53 significant bits; that is
    outside the embedding and gives [None], as does a negative overflow. *)
Definition of_integer (z : Z) : option number :=
  if exact z then Some (Exact z)
  else if (10 ^ 309 <=? z)%Z then Some Infinity
  else None.

(** [parseInt(s, 10)]: the Number value of the integer read, [NaN] when
    there is no digit to read. *)
Definition parseInt (s : jsstring) : option number :=
  match parseInt10 s with
  | None => Some NaN
  | Some z => of_integer z
  end.

(** [Number.isNaN(n)] *)
Definition isNaN (n : number) : bool :=
  match n with NaN => true | _ => false end.

(** [Math.floor(n / 60)]. The quotient of an exact integer by 60 is rounded
    by less than 1/64, which cannot carry it to the next integer, so its
    floor is the integer quotient. [Infinity / 60] is [Infinity]. *)
Definition floor_div60 (n : number) : number :=
  match n with
  | Exact z => Exact (z / 60)
  | Infinity => Infinity
  | NaN => NaN
  end.

(** [n % 60]: exact on integers, and [Infinity % 60] is [NaN]. *)
Definition rem60 (n : number) : number :=
  match n with
  | Exact z => Exact (Z.rem z 60)
  | Infinity => NaN
  | NaN => NaN
  end.

(** [String(n)] and [n.toString()] *)
Definition toString (n : number) : jsstring :=
  match n with
  | Exact z => Number_toString z
  | Infinity => str "Infinity"
  | NaN => str "NaN"
  end.

(** [String(raw)]; a number is printed with all its digits in the exact
    range, where the embedding has it. *)
Definition String_of (raw : value) : option jsstring :=
  match raw with
  | VNum z => if exact z then Some (ToString raw) else None
  | _ => Some (ToString raw)
  end.

(** Lines 13-23. *)
Definition formatRuntime (raw : value) : option jsstring :=
  match raw with
  | VNull | VUndefined => Some []
  | _ =>
      match String_of raw with
      | None => None
      | Some text =>
          let s := trim text in
          if negb (truthy s) then Some []
          else
            match parseInt (replace_non_digits s) with
            | None => None
            | Some n =>
                if isNaN n then Some []
                else
                  let h := floor_div60 n in
                  let m := rem60 n in
                  Some (toString h ++ str ":"
                        ++ padStart 2 (str "0") (toString m))
            end
      end
  end.

(** A runtime of four hundred nines. *)
Definition four_hundred_nines : value := VStr (repeat 57 400).

End Double.

(** ** The order of requests and Refresh in the events of a handler *)

(** The events [d] of a handler that, with the log at [h], sends the
    requests [rs] one after the other, each once the one before it was
    answered, and enters Refresh as soon as the last one was answered: [d]
    starts with the first request and its settlement as the environment
    decides it; when the promise is fulfilled the rest of [rs] follows in
    the same way, and when it is rejected no Refresh follows at all. With
    no request to send, [d] starts with the entry into Refresh. *)
Fixpoint awaits_then_refresh (E : env) (h : list event) (rs : list request)
    (d : list event) : Prop :=
  match rs with
  | [] => exists rest, d = EvRefresh :: rest
  | r :: rs' =>
      let fulfilled := fetch_fulfils E (h ++ [EvRequest r]) r in
      exists d',
        d = EvRequest r :: EvSettled r fulfilled :: d'
        /\ if fulfilled
           then awaits_then_refresh E (h ++ [EvRequest r; EvSettled r true]) rs' d'
           else ~ In EvRefresh d'
  end.

(** The order the specification asks of every mutation path, read on the
    events [d] of one handler: each entry into Refresh has the response to
    a request of the handler before it. *)
Definition refresh_after_a_response (d : list event) : Prop :=
  forall pre post,
    d = pre ++ EvRefresh :: post -> exists r, In (EvSettled r true) pre.

(** A string without line break. *)
Definition single_line (s : jsstring) : Prop :=
  forallb (fun c => negb ((c =? 10) || (c =? 13))) s = true.

(** A movie whose synopsis has two lines, broken by CR LF. *)
Definition two_line_synopsis : movie :=
  Movie (VNum 7) (str "Heat") (VNum 170) (Some [108; 13; 10; 109]).

(** * Properties *)

(** ** Formatter *)

Section FormatterFacts.

Lemma white_space_not_digit (c : N) :
  is_white_space c = true -> is_digit c = false.
Proof.
  unfold is_white_space, is_digit. intros H.
  destruct (N.leb_spec 48 c) as [Hlo|]; [|reflexivity].
  destruct (N.leb_spec c 57) as [Hhi|]; [|reflexivity].
  exfalso.
  repeat match type of H with
         | context [N.eqb c ?k] =>
             destruct (N.eqb_spec c k); [lia|]
         end.
  destruct (N.leb_spec 8192 c); [lia|]. discriminate H.
Qed.

Lemma filter_digit_skip_white (s : jsstring) :
  List.filter is_digit (skip_while is_white_space s) = List.filter is_digit s.
Proof.
  induction s as [|c r IH]; [reflexivity|]. simpl.
  destruct (is_white_space c) eqn:Hw.
  - rewrite (white_space_not_digit c Hw). exact IH.
  - reflexivity.
Qed.

Lemma filter_digit_trim (s : jsstring) :
  List.filter is_digit (trim s) = List.filter is_digit s.
Proof.
  unfold trim, trimEnd, trimStart.
  rewrite filter_rev, filter_digit_skip_white, filter_rev, rev_involutive.
  apply filter_digit_skip_white.
Qed.

Lemma span_digits_all (ds : jsstring) :
  forallb is_digit ds = true -> span_digits ds = ds.
Proof.
  induction ds as [|c r IH]; [reflexivity|]. simpl.
  intros [Hc Hr]%andb_true_iff. rewrite Hc, (IH Hr). reflexivity.
Qed.

(** On a non-empty run of digits [parseInt] reads the whole run. *)
Lemma parseInt10_digits (ds : jsstring) :
  forallb is_digit ds = true -> ds <> [] ->
  parseInt10 ds = Some (decimal_value ds).
Proof.
  intros Hall Hne. destruct ds as [|c r]; [congruence|].
  pose proof Hall as Hall'. simpl in Hall'.
  apply andb_true_iff in Hall' as [Hc _].
  unfold parseInt10, trimStart. simpl skip_while.
  destruct (is_white_space c) eqn:Hw.
  { rewrite (white_space_not_digit c Hw) in Hc. discriminate. }
  assert (H45 : (c =? 45) = false).
  { unfold is_digit in Hc. apply andb_true_iff in Hc as [Hlo _].
    apply N.leb_le in Hlo. apply N.eqb_neq. lia. }
  assert (H43 : (c =? 43) = false).
  { unfold is_digit in Hc. apply andb_true_iff in Hc as [Hlo _].
    apply N.leb_le in Hlo. apply N.eqb_neq. lia. }
  rewrite H45, H43, (span_digits_all _ Hall).
  f_equal. destruct (decimal_value (c :: r)); reflexivity.
Qed.

Lemma digit_value_range (c : N) :
  is_digit c = true -> (0 <= digit_value c <= 9)%Z.
Proof.
  unfold is_digit, digit_value. intros [Hlo Hhi]%andb_true_iff.
  apply N.leb_le in Hlo, Hhi. lia.
Qed.

Lemma decimal_value_from (ds : jsstring) (acc : Z) :
  forallb is_digit ds = true -> (0 <= acc)%Z ->
  (0 <= fold_left (fun a c => 10 * a + digit_value c) ds acc)%Z.
Proof.
  revert acc. induction ds as [|c r IH]; intros acc Hall Hacc; [exact Hacc|].
  simpl in *. apply andb_true_iff in Hall as [Hc Hr].
  apply IH; [exact Hr|]. pose proof (digit_value_range c Hc). lia.
Qed.

Lemma decimal_value_nonneg (ds : jsstring) :
  forallb is_digit ds = true -> (0 <= decimal_value ds)%Z.
Proof. intros H. apply decimal_value_from; [exact H | lia]. Qed.

(** Minutes below sixty: [padStart(2, '0')] writes them on two digits. *)
Lemma padStart_minutes (m : Z) :
  (0 <= m < 60)%Z ->
  padStart 2 (str "0") (Number_toString m) = zero_pad2 m.
Proof.
  intros Hm.
  assert (Hcases : exists k : nat, (k < 60)%nat /\ m = Z.of_nat k).
  { exists (Z.to_nat m). split; lia. }
  destruct Hcases as (k & Hk & ->).
  do 60 (destruct k as [|k]; [reflexivity|]). lia.
Qed.

End FormatterFacts.

(** ** Renderer *)

Section RendererFacts.

Context {A : Type} (f : A -> node).

(** A loop that appends one built node per item appends their list. *)
Lemma fold_appendChild (items : list A) (tag : string) props ls kids :
  fold_left (fun c x => appendChild c (f x)) items (Element tag props ls kids)
  = Element tag props ls (kids ++ List.map f items).
Proof.
  revert kids. induction items as [|x items IH]; intros kids; simpl.
  - rewrite app_nil_r. reflexivity.
  - rewrite IH, <- app_assoc. reflexivity.
Qed.

End RendererFacts.

Lemma renderList_children (l : listing) (tag : string) props ls old :
  renderList (Element tag props ls old) l = Element tag props ls (rendered l).
Proof.
  unfold renderList. cbn [set_innerHTML].
  destruct l as [|y l]; [reflexivity|].
  cbn [List.map length Nat.eqb].
  rewrite (fold_appendChild (fun y => render_year (fst y) (snd y))).
  reflexivity.
Qed.

(** C4. Rendering replaces the content of the container by the nodes built
    from the listing alone, whatever was there before, and rendering the
    same listing again into the result gives the same tree. *)
Theorem renderList_replaces_and_repeats :
  forall (l : listing) (tag : string) (props : list (string * jsstring))
         (ls : list listener) (old : list node),
    let c := Element tag props ls old in
    renderList c l = Element tag props ls (rendered l)
    /\ (forall old', childNodes (renderList (Element tag props ls old') l)
                     = childNodes (renderList c l))
    /\ renderList (renderList c l) l = renderList c l
    /\ textContent (renderList (renderList c l) l) = textContent (renderList c l).
Proof.
  intros l tag props ls old c. subst c.
  rewrite !renderList_children.
  split; [reflexivity|].
  split; [intros old'; rewrite renderList_children; reflexivity|].
  split; reflexivity.
Qed.

(** C7. For the listing without years the container holds exactly the
    paragraph 'No movies in list yet.', and below it there is no year or
    genre block, no list, no entry and no button. *)
Theorem renderList_empty_listing :
  forall (tag : string) (props : list (string * jsstring))
         (ls : list listener) (old : list node),
    let c := renderList (Element tag props ls old) [] in
    childNodes c = [Element "p" [] [] [Text (str "No movies in list yet.")]]
    /\ existsb (fun n => has_class (str "year") n || has_class (str "genre") n
                         || has_tag "ul" n || has_tag "li" n
                         || has_tag "div" n || has_tag "button" n)
               (childNodes c) = false.
Proof.
  intros tag props ls old c. subst c. split; reflexivity.
Qed.

(** ** Handlers *)

Section HandlerFacts.

#[local] Arguments str : simpl never.
#[local] Arguments renderList : simpl never.
#[local] Arguments html_p : simpl never.
#[local] Arguments set_innerHTML : simpl never.
#[local] Arguments trim : simpl never.
#[local] Arguments save_payload : simpl never.
#[local] Arguments list_name_of : simpl never.
#[local] Arguments jsstring_eqb : simpl never.
#[local] Arguments select_value : simpl never.
#[local] Arguments set_select_value : simpl never.
#[local] Arguments append_option : simpl never.
#[local] Arguments remove_question : simpl never.
#[local] Arguments delete_question : simpl never.
#[local] Arguments pick_a_list : simpl never.

(** One step of symbolic execution: the monad and the primitives are
    unfolded and the record projections computed. *)
Ltac exec_step :=
  repeat progress
    (unfold exec, outcome, detached, try_catch, fetch, getList, getLists,
       addMovie, createList, deleteList, renameList, confirm, prompt, alert,
       list_name_or_default, select_get_value, select_update, es_close,
       new_EventSource, setInterval_refresh, emit, throw, modify, get,
       mbind, M_bind, mret, M_ret, selected_list_name, new_events in *;
     cbn in *).

(** The log of a finished run, with its appends flattened. *)
Tactic Notation "flatten_log" := rewrite <- ?app_assoc; cbn [app].
Tactic Notation "flatten_log" "in" hyp(H) := rewrite <- ?app_assoc in H; cbn [app] in H.

Variable E : env.

(** C5. Refresh reads the current list name. When it is empty, the
    container gets the 'pick a list' paragraph and no request is sent.
    Otherwise the listing of that list is requested, and once the server
    has answered the renderer is run on the reply. *)
Theorem refreshList_by_selection (w : world) :
  (selected_list_name w = [] ->
     exec (refreshList E) w
     = set_listContainer
         (set_innerHTML [html_p "Please pick a list from the dropdown menu."]
                        (listContainer w))
         (set_log (log w ++ [EvRefresh]) w)
     /\ sent_requests (new_events w (exec (refreshList E) w)) = [])
  /\ (selected_list_name w <> [] ->
      let n := selected_list_name w in
      let r := Request GET "/api/list" [("list_name"%string, n)] None in
      let l1 := log w ++ [EvRefresh; EvRequest r] in
      log (exec (refreshList E) w) = l1 ++ [EvSettled r (fetch_fulfils E l1 r)]
      /\ (fetch_fulfils E l1 r = true ->
          listContainer (exec (refreshList E) w)
          = renderList (listContainer w)
                       (listing_reply E (l1 ++ [EvSettled r true]) n))).
Proof.
  split.
  - intros H. unfold refreshList. exec_step. rewrite H. exec_step.
    split; [reflexivity|]. rewrite !drop_app_length. reflexivity.
  - intros H n r l1. subst n r l1. unfold refreshList. exec_step.
    destruct (list_name_of (list_select w)) as [|c n] eqn:Hn; [congruence|].
    exec_step. flatten_log.
    destruct (fetch_fulfils E _ _) eqn:Hf; exec_step; flatten_log.
    + split; [reflexivity|]. intros _. reflexivity.
    + split; [reflexivity|]. intros Habs. discriminate Habs.
Qed.

(** C6. With the drop-down on no list or on 'default', rename and delete
    only raise their alert: the state is otherwise untouched and no request
    is sent. *)
Theorem rename_delete_guarded (w : world) (s : select_el) :
  list_select w = Some s ->
  select_value s = [] \/ select_value s = str "default" ->
  (exec (renameBtn_click E) w
   = set_log (log w ++ [EvAlert (str "Cannot rename default list")]) w
   /\ sent_requests (new_events w (exec (renameBtn_click E) w)) = [])
  /\ (exec (deleteBtn_click E) w
      = set_log (log w ++ [EvAlert (str "Cannot delete default list")]) w
      /\ sent_requests (new_events w (exec (deleteBtn_click E) w)) = []).
Proof.
  intros Hs Hv.
  assert (Hguard : negb (truthy (select_value s))
                   || jsstring_eqb (select_value s) (str "default") = true).
  { destruct Hv as [-> | ->]; reflexivity. }
  unfold renameBtn_click, deleteBtn_click. exec_step.
  rewrite Hs. exec_step. rewrite Hguard. exec_step.
  rewrite !drop_app_length. repeat split; reflexivity.
Qed.

(** C10. When the prompt of rename is cancelled, or answers the empty
    name or the current name, no request is sent and nothing but the log
    changes: drop-down, selection and subscription are as before. *)
Theorem rename_same_or_empty_name (w : world) (s : select_el) :
  list_select w = Some s ->
  let oldName := select_value s in
  let answer := prompt_answer E (log w) (str "Rename list to:") oldName in
  answer = None \/ answer = Some [] \/ answer = Some oldName ->
  let w' := exec (renameBtn_click E) w in
  sent_requests (new_events w w') = []
  /\ set_log (log w) w' = w
  /\ list_select w' = list_select w
  /\ selected_list_name w' = selected_list_name w
  /\ es w' = es w /\ event_sources w' = event_sources w
  /\ intervals w' = intervals w.
Proof.
  intros Hs oldName answer Hans w'. subst w' answer oldName.
  unfold renameBtn_click. exec_step. rewrite Hs. exec_step.
  destruct w as [sel cont md ctx e srcs ivs lg]. cbn in *. subst sel.
  destruct (negb (truthy (select_value s)) || _) eqn:Hguard; exec_step.
  { rewrite !drop_app_length. repeat split; reflexivity. }
  destruct Hans as [Ha | [Ha | Ha]]; rewrite Ha; exec_step.
  - rewrite !drop_app_length. repeat split; reflexivity.
  - rewrite !drop_app_length. repeat split; reflexivity.
  - assert (Heq : jsstring_eqb (select_value s) (select_value s) = true).
    { unfold jsstring_eqb. apply bool_decide_eq_true. reflexivity. }
    rewrite Heq, orb_true_r. exec_step.
    rewrite !drop_app_length. repeat split; reflexivity.
Qed.

(** Case analysis on what the environment answered. *)
Ltac answer_cases :=
  repeat (exec_step;
    match goal with
    | |- context [fetch_fulfils E ?h ?r] =>
        destruct (fetch_fulfils E h r) eqn:?
    | |- context [confirm_answer E ?h ?m] =>
        destruct (confirm_answer E h m) eqn:?
    | |- context [prompt_answer E ?h ?m ?d] =>
        destruct (prompt_answer E h m d) eqn:?
    | |- context [event_source_constructs E ?h ?n] =>
        destruct (event_source_constructs E h n) eqn:?
    | |- context [negb (truthy ?x)] =>
        destruct (truthy x) eqn:?
    | |- context [jsstring_eqb ?a ?b] =>
        destruct (jsstring_eqb a b) eqn:?
    | |- context [match ?e with Some _ => _ | None => _ end] =>
        is_var e; destruct e
    end);
  exec_step.

(** Reading a list of events from its head. *)
Lemma refresh_only_after_nil (r : request) : refresh_only_after r [].
Proof. intros [|x pre] post H; discriminate H. Qed.

Lemma refresh_only_after_settled (r : request) (d : list event) :
  refresh_only_after r (EvSettled r true :: d).
Proof.
  intros [|x pre] post H; [discriminate H|].
  injection H as <- _. left. reflexivity.
Qed.

Lemma refresh_only_after_cons (r : request) (e : event) (d : list event) :
  e <> EvRefresh -> refresh_only_after r d -> refresh_only_after r (e :: d).
Proof.
  intros He Hd [|x pre] post H.
  - injection H as -> _. congruence.
  - injection H as <- H. right. exact (Hd pre post H).
Qed.

Ltac refresh_order :=
  match goal with
  | |- refresh_only_after _ _ =>
      solve [repeat first [ apply refresh_only_after_nil
                          | apply refresh_only_after_settled
                          | apply refresh_only_after_cons; [discriminate|] ]]
  | |- In _ _ -> _ =>
      let H := fresh "H" in
      intros H;
      first [ solve [simpl; repeat (first [left; reflexivity | right])]
            | solve [exfalso; simpl in H;
                     repeat (destruct H as [H|H]; [discriminate H|]); exact H]
            | clear H; refresh_order ]
  end.

Ltac settle_order :=
  answer_cases; flatten_log; rewrite ?drop_app_length;
  unfold refresh_follows, refresh_follows_both;
  repeat split; refresh_order.

(** What Refresh logs begins with its mark. *)
Lemma refreshList_events (w : world) :
  exists d, log (exec (refreshList E) w) = log w ++ EvRefresh :: d.
Proof.
  unfold refreshList. answer_cases; flatten_log; eexists; reflexivity.
Qed.

(** Opening a stream logs nothing. *)
Lemma openStreamFor_log (n : jsstring) (w : world) :
  log (exec (openStreamFor E n) w) = log w.
Proof.
  unfold openStreamFor. destruct w as [sel cont md ctx0 e srcs ivs lg].
  answer_cases; reflexivity.
Qed.

(** The create path, taken apart at the call of Refresh. *)
Lemma newBtn_click_order (w : world) (s : select_el) (name : jsstring) :
  list_select w = Some s ->
  prompt_answer E (log w) (str "New list name:") [] = Some name ->
  refresh_follows_both
    (post "/api/lists" {["name" := VStr (trim name)]}) lists_request
    (new_events w (exec (newBtn_click E) w)).
Proof.
  destruct w as [sel cont md ctx0 e srcs ivs lg]. intros Hs Hname.
  cbn in Hs, Hname. subst sel.
  unfold newBtn_click, refreshListsDropdown.
  exec_step. rewrite Hname. exec_step.
  destruct (truthy name) eqn:?; exec_step;
    [|flatten_log; rewrite ?drop_app_length; repeat split; refresh_order].
  do 2 (match goal with
        | |- context [fetch_fulfils E ?h ?r] =>
            destruct (fetch_fulfils E h r) eqn:?
        end; exec_step;
        [|flatten_log; rewrite ?drop_app_length; repeat split; refresh_order]).
  match goal with
  | |- context [refreshList E ?W] =>
      destruct (refreshList_events W) as (d1 & Hlog);
      unfold exec in Hlog;
      destruct (refreshList E W) as [r1 W2]
  end.
  cbn in Hlog. flatten_log in Hlog.
  destruct r1 as [[]|err].
  - pose proof (openStreamFor_log (trim name) W2) as Hopen.
    unfold exec in Hopen.
    destruct (openStreamFor E (trim name) W2) as [r2 W3].
    cbn in Hopen.
    destruct r2 as [[]|err]; cbn; rewrite ?Hopen, ?Hlog; flatten_log;
      rewrite ?drop_app_length; repeat split; refresh_order.
  - cbn. rewrite Hlog. flatten_log.
    rewrite ?drop_app_length; repeat split; refresh_order.
Qed.

(** Refresh is never entered too early, whatever the user answers. On
    every mutation path the Refresh comes after the response to
    the mutation request, never before it, and it does come once the
    response (and, for the list operations, the reloaded drop-down) has
    arrived; the change of the drop-down starts with the Refresh. *)
Theorem refresh_follows_response (w : world) :
  (forall id,
      refresh_follows
        (post "/api/add"
              (<["list_name" := VStr (selected_list_name w)]> {["id" := id]}))
        (new_events w (exec (addBtn_click E id) w)))
  /\ (forall m year genre,
      refresh_follows
        (post "/api/remove"
              (<["list_name" := VStr (selected_list_name w)]>
               (<["genre" := VStr genre]>
                (<["year" := VStr year]> {["id" := movie_id m]}))))
        (new_events w (exec (removeBtn_click E m year genre) w)))
  /\ (forall ctx, editingContext w = Some ctx ->
      refresh_follows
        (post "/api/update" (save_payload ctx (modal w) (selected_list_name w)))
        (new_events w (exec (modalSave_click E) w)))
  /\ refresh_follows
       (post "/api/clear" {["list_name" := VStr (selected_list_name w)]})
       (new_events w (exec (clearBtn_click E) w))
  /\ (forall s, list_select w = Some s ->
      (forall name,
          prompt_answer E (log w) (str "New list name:") [] = Some name ->
          refresh_follows_both
            (post "/api/lists" {["name" := VStr (trim name)]}) lists_request
            (new_events w (exec (newBtn_click E) w)))
      /\ (forall newName,
          prompt_answer E (log w) (str "Rename list to:") (select_value s)
          = Some newName ->
          refresh_follows_both
            (post "/api/lists/rename"
                  (<["new" := VStr (trim newName)]>
                   {["old" := VStr (select_value s)]}))
            lists_request
            (new_events w (exec (renameBtn_click E) w)))
      /\ refresh_follows_both
           (Request DELETE "/api/lists" []
                    (Some {["name" := VStr (select_value s)]}))
           lists_request
           (new_events w (exec (deleteBtn_click E) w)))
  /\ (exists rest, new_events w (exec (select_change E) w) = EvRefresh :: rest).
Proof.
  split; [|split; [|split; [|split; [|split]]]].
  - intros id. unfold addBtn_click, refreshList. settle_order.
  - intros m year genre. unfold removeBtn_click, refreshList. settle_order.
  - intros ctx Hctx. destruct w as [sel cont md ctx0 e srcs ivs lg].
    cbn in Hctx. subst ctx0.
    unfold modalSave_click, refreshList. settle_order.
  - unfold clearBtn_click, refreshList. settle_order.
  - intros s Hs. split; [|split].
    + intros name Hname. exact (newBtn_click_order w s name Hs Hname).
    + intros newName Hname. destruct w as [sel cont md ctx0 e srcs ivs lg].
      cbn in Hs, Hname. subst sel.
      unfold renameBtn_click, refreshListsDropdown, refreshList.
      exec_step.
      destruct (negb (truthy (select_value s)) || _); [settle_order|].
      exec_step. rewrite Hname. settle_order.
    + destruct w as [sel cont md ctx0 e srcs ivs lg]. cbn in Hs. subst sel.
      unfold deleteBtn_click, refreshListsDropdown, refreshList. settle_order.
  - destruct (refreshList_events w) as (d & Hd).
    unfold select_change. exec_step.
    destruct (refreshList E w) as [r1 w1]. cbn in Hd.
    destruct r1 as [[]|err]; cbn.
    + destruct (list_select w1) as [s1|]; cbn.
      * destruct (truthy (select_value s1)); cbn.
        -- pose proof (openStreamFor_log (select_value s1) w1) as Ho.
           unfold exec in Ho. rewrite Ho, Hd, drop_app_length. eauto.
        -- destruct (es w1); cbn; rewrite Hd, drop_app_length; eauto.
      * rewrite Hd, drop_app_length. eauto.
    + rewrite Hd, drop_app_length. eauto.
Qed.

(** ** The edit payload *)

Lemma trim_nil : trim [] = [].
Proof. reflexivity. Qed.

Lemma and_trim_entry (v : jsstring) (m : gmap string value) (k : string) :
  (if truthy (and_trim v) then <[k := VStr (and_trim v)]> m else m) !! k
  = match trimmed_entry v with
    | Some x => Some x
    | None => m !! k
    end.
Proof.
  unfold and_trim, trimmed_entry. destruct v as [|c v].
  - rewrite trim_nil. reflexivity.
  - cbn [truthy]. destruct (truthy (trim (c :: v))).
    + apply lookup_insert_eq.
    + reflexivity.
Qed.

Lemma and_trim_other (v : jsstring) (m : gmap string value) (k k' : string) :
  k <> k' ->
  (if truthy (and_trim v) then <[k := VStr (and_trim v)]> m else m) !! k'
  = m !! k'.
Proof.
  intros Hk. destruct (truthy (and_trim v)); [|reflexivity].
  apply lookup_insert_ne. exact Hk.
Qed.

Lemma save_payload_built (ctx : context) (md : modal_state) (ln : jsstring) :
  payload_as_built ctx md ln (save_payload ctx md ln).
Proof.
  unfold payload_as_built, save_payload, synopsis_field. cbv zeta.
  set (raw := default [] (modalSynopsis md)).
  assert (Hraw : match modalSynopsis md with Some v => v | None => [] end = raw).
  { subst raw. destruct (modalSynopsis md); reflexivity. }
  rewrite Hraw. clear Hraw.
  repeat split.
  - rewrite lookup_insert_ne by discriminate.
    destruct (truthy raw); rewrite ?lookup_insert_ne by discriminate;
      rewrite !and_trim_other by discriminate; apply lookup_singleton_eq.
  - apply lookup_insert_eq.
  - rewrite lookup_insert_ne by discriminate.
    destruct (truthy raw); rewrite ?lookup_insert_ne by discriminate;
      rewrite !and_trim_other by discriminate; rewrite and_trim_entry;
      rewrite lookup_singleton_ne by discriminate;
      destruct (trimmed_entry (modalTitle md)); reflexivity.
  - rewrite lookup_insert_ne by discriminate.
    destruct (truthy raw); rewrite ?lookup_insert_ne by discriminate;
      rewrite !and_trim_other by discriminate; rewrite and_trim_entry;
      rewrite and_trim_other by discriminate;
      rewrite lookup_singleton_ne by discriminate;
      destruct (trimmed_entry (modalYear md)); reflexivity.
  - rewrite lookup_insert_ne by discriminate.
    destruct (truthy raw); rewrite ?lookup_insert_ne by discriminate;
      rewrite and_trim_entry; rewrite !and_trim_other by discriminate;
      rewrite lookup_singleton_ne by discriminate;
      destruct (trimmed_entry (modalGenre md)); reflexivity.
  - rewrite lookup_insert_ne by discriminate.
    destruct (truthy raw).
    + apply lookup_insert_eq.
    + rewrite !and_trim_other by discriminate.
      apply lookup_singleton_ne. discriminate.
Qed.


(** C2, as amended. Saving with an editing context sends, as its first
    event, the update request whose payload holds the movie id and the
    current list name, each of [new_title], [new_year], [new_genre] with
    the trimmed value exactly when that value is not empty, and
    [new_synopsis], trimmed and cut to 250 code units, exactly when the
    synopsis field is not empty as typed. *)
Theorem save_sends_built_payload (w : world) (ctx : context) :
  editingContext w = Some ctx ->
  let p := save_payload ctx (modal w) (selected_list_name w) in
  (exists rest,
      new_events w (exec (modalSave_click E) w)
      = EvRequest (post "/api/update" p) :: rest)
  /\ payload_as_built ctx (modal w) (selected_list_name w) p
  /\ (forall s, p !! "new_synopsis" = Some (VStr s) -> (length s <= 250)%nat).
Proof.
  intros Hctx p. subst p. split; [|split].
  - destruct w as [sel cont md ctx0 e srcs ivs lg]. cbn in Hctx. subst ctx0.
    unfold modalSave_click, refreshList.
    answer_cases; flatten_log; rewrite ?drop_app_length; eexists; reflexivity.
  - apply save_payload_built.
  - intros s Hs.
    destruct (save_payload_built ctx (modal w) (selected_list_name w))
      as (_ & _ & _ & _ & _ & Hsyn).
    rewrite Hsyn in Hs.
    destruct (truthy (synopsis_field (modal w))); [|discriminate Hs].
    assert (Heq : s = slice0 250 (trim (synopsis_field (modal w)))) by congruence.
    subst s. unfold slice0. rewrite length_take. lia.
Qed.

(** The renderer never leaves the 'pick a list' paragraph. *)
Lemma renderList_never_pick_a_list (c : node) (l : listing) :
  childNodes (renderList c l) <> [pick_a_list].
Proof.
  destruct c as [data|tag props ls old].
  - unfold renderList. cbn [set_innerHTML].
    destruct (length (List.map fst l) =? 0)%nat; [discriminate|].
    induction l as [|y l IH]; [discriminate|exact IH].
  - rewrite renderList_children. cbn [childNodes].
    destruct l as [|y l]; [discriminate|].
    cbn [rendered List.map]. unfold render_year.
    cbn [createElement set_prop set_textContent appendChild app].
    rewrite (fold_appendChild (fun g => render_genre (fst y) (fst g) (snd g))).
    discriminate.
Qed.

(** C9. Without the drop-down in the page and with a server that
    answers, Refresh, Remove, Add and Save do not fail, use the list
    name 'default' in everything they send, and end by rendering the
    listing of 'default', not the 'pick a list' paragraph. *)
Theorem missing_dropdown_uses_default (w : world) :
  list_select w = None ->
  (forall h r, fetch_fulfils E h r = true) ->
  runs_and_renders (refreshList E) w [list_request (str "default")]
  /\ (forall m year genre,
      confirm_answer E (log w) (remove_question m year genre) = true ->
      runs_and_renders (removeBtn_click E m year genre) w
        [post "/api/remove"
              (<["list_name" := VStr (str "default")]>
               (<["genre" := VStr genre]>
                (<["year" := VStr year]> {["id" := movie_id m]})));
         list_request (str "default")])
  /\ (forall id,
      runs_and_renders (addBtn_click E id) w
        [post "/api/add" (<["list_name" := VStr (str "default")]> {["id" := id]});
         list_request (str "default")])
  /\ (forall ctx, editingContext w = Some ctx ->
      runs_and_renders (modalSave_click E) w
        [post "/api/update" (save_payload ctx (modal w) (str "default"));
         list_request (str "default")]
      /\ save_payload ctx (modal w) (str "default") !! "list_name"
         = Some (VStr (str "default"))).
Proof.
  intros Hsel Hf.
  destruct w as [sel cont md ctx0 e srcs ivs lg]. cbn in Hsel. subst sel.
  assert (Hdefault : list_name_of None = str "default") by reflexivity.
  assert (Htruthy : truthy (str "default") = true) by reflexivity.
  unfold runs_and_renders.
  split; [|split; [|split]].
  - unfold refreshList. exec_step. rewrite Hdefault, Htruthy. exec_step.
    rewrite !Hf. exec_step. flatten_log. rewrite drop_app_length.
    repeat split; [eexists; reflexivity | apply renderList_never_pick_a_list].
  - intros m year genre Hyes. cbn in Hyes.
    unfold removeBtn_click, refreshList. exec_step. rewrite Hyes. exec_step.
    rewrite !Hf. exec_step. rewrite Hdefault, Htruthy. exec_step.
    rewrite !Hf. exec_step. flatten_log. rewrite drop_app_length.
    repeat split; [eexists; reflexivity | apply renderList_never_pick_a_list].
  - intros id. unfold addBtn_click, refreshList. exec_step.
    rewrite !Hf. exec_step. rewrite Hdefault, Htruthy. exec_step.
    rewrite !Hf. exec_step. flatten_log. rewrite drop_app_length.
    repeat split; [eexists; reflexivity | apply renderList_never_pick_a_list].
  - intros ctx Hctx. cbn in Hctx. subst ctx0. split.
    + unfold modalSave_click, refreshList. exec_step.
      rewrite !Hf. exec_step. rewrite Hdefault, Htruthy. exec_step.
      rewrite !Hf. exec_step. flatten_log. rewrite drop_app_length.
      repeat split; [eexists; reflexivity | apply renderList_never_pick_a_list].
    + apply (save_payload_built ctx md (str "default")).
Qed.


(** ** The live-update channel *)

Lemma keeps_ret {A : Type} (a : A) : keeps_streams (mret a).
Proof. intros w. split; reflexivity. Qed.

Lemma keeps_get : keeps_streams get.
Proof. intros w. split; reflexivity. Qed.

Lemma keeps_throw {A : Type} (e : exn) : keeps_streams (@throw A e).
Proof. intros w. split; reflexivity. Qed.

Lemma keeps_modify (f : world -> world) :
  (forall w, es (f w) = es w /\ event_sources (f w) = event_sources w) ->
  keeps_streams (modify f).
Proof. intros Hf w. exact (Hf w). Qed.

Lemma keeps_bind {A B : Type} (m : M A) (f : A -> M B) :
  keeps_streams m -> (forall a, keeps_streams (f a)) ->
  keeps_streams (m ≫= f).
Proof.
  intros Hm Hf w. unfold mbind, M_bind.
  destruct (Hm w) as [H1 H2]. destruct (m w) as [[a|e] w1]; cbn in *.
  - destruct (Hf a w1) as [H3 H4]. split; congruence.
  - split; assumption.
Qed.

Lemma keeps_try_catch {A : Type} (m : M A) (h : exn -> M A) :
  keeps_streams m -> (forall e, keeps_streams (h e)) ->
  keeps_streams (try_catch m h).
Proof.
  intros Hm Hh w. unfold try_catch.
  destruct (Hm w) as [H1 H2]. destruct (m w) as [[a|e] w1]; cbn in *.
  - split; assumption.
  - destruct (Hh e w1) as [H3 H4]. split; congruence.
Qed.

Ltac keeps_step :=
  first
    [ apply keeps_ret | apply keeps_get | apply keeps_throw
    | apply keeps_modify; intros ?; split; reflexivity
    | apply keeps_bind; [|intros ?]
    | apply keeps_try_catch; [|intros ?]
    | match goal with
      | |- keeps_streams (if ?b then _ else _) => destruct b
      | |- keeps_streams (match ?x with _ => _ end) => destruct x
      end ].

Ltac keeps :=
  unfold detached, fetch, getList, getLists, addMovie, createList,
    deleteList, renameList, confirm, prompt, alert, list_name_or_default,
    select_get_value, select_update, emit;
  repeat keeps_step.

Lemma keeps_refreshList : keeps_streams (refreshList E).
Proof. unfold refreshList. keeps. Qed.

Lemma keeps_refreshListsDropdown : keeps_streams (refreshListsDropdown E).
Proof. unfold refreshListsDropdown. keeps. Qed.


Lemma keeps_removeBtn_click m year genre :
  keeps_streams (removeBtn_click E m year genre).
Proof. unfold removeBtn_click. keeps; apply keeps_refreshList. Qed.

Lemma keeps_addBtn_click id : keeps_streams (addBtn_click E id).
Proof. unfold addBtn_click. keeps; apply keeps_refreshList. Qed.

Lemma keeps_modalSave_click : keeps_streams (modalSave_click E).
Proof. unfold modalSave_click. keeps; apply keeps_refreshList. Qed.

Lemma keeps_clearBtn_click : keeps_streams (clearBtn_click E).
Proof. unfold clearBtn_click. keeps; apply keeps_refreshList. Qed.

Lemma keeps_renameBtn_click : keeps_streams (renameBtn_click E).
Proof.
  unfold renameBtn_click. keeps;
    first [apply keeps_refreshList | apply keeps_refreshListsDropdown].
Qed.

Lemma keeps_deleteBtn_click : keeps_streams (deleteBtn_click E).
Proof.
  unfold deleteBtn_click. keeps;
    first [apply keeps_refreshList | apply keeps_refreshListsDropdown].
Qed.

(** Sources, as a list: what closing and opening do. *)
Lemma all_closed_after_close (l : list event_source) (i : nat) :
  (forall j s, l !! j = Some s -> es_open s = true -> Some i = Some j) ->
  all_closed (alter close_source i l).
Proof.
  intros H j s Hj. destruct (decide (i = j)) as [->|Hne].
  - rewrite list_lookup_alter_eq in Hj.
    destruct (l !! j) as [s0|]; cbn in Hj; [|discriminate Hj].
    injection Hj as <-. reflexivity.
  - rewrite list_lookup_alter_ne in Hj by exact Hne.
    destruct (es_open s) eqn:Ho; [|reflexivity].
    specialize (H j s Hj Ho). congruence.
Qed.

Lemma all_closed_without_es (l : list event_source) :
  (forall j s, l !! j = Some s -> es_open s = true -> None = Some j) ->
  all_closed l.
Proof.
  intros H j s Hj. destruct (es_open s) eqn:Ho; [|reflexivity].
  specialize (H j s Hj Ho). discriminate H.
Qed.

Lemma consistent_after_open (l : list event_source) (x : event_source) :
  all_closed l ->
  forall j s, (l ++ [x]) !! j = Some s -> es_open s = true ->
              Some (length l) = Some j.
Proof.
  intros Hl j s Hj Ho.
  destruct (decide (j < length l)%nat) as [Hlt|Hge].
  - rewrite lookup_app_l in Hj by exact Hlt.
    rewrite (Hl j s Hj) in Ho. discriminate Ho.
  - assert (Hlen : (j < length (l ++ [x]))%nat).
    { apply lookup_lt_is_Some. eauto. }
    rewrite length_app in Hlen. cbn in Hlen. f_equal. lia.
Qed.

Lemma consistent_closed (l : list event_source) (o : option nat) :
  all_closed l ->
  forall j s, l !! j = Some s -> es_open s = true -> o = Some j.
Proof. intros Hl j s Hj Ho. rewrite (Hl j s Hj) in Ho. discriminate Ho. Qed.

(** Opening a stream keeps [es] on the only open source, with or without
    [EventSource]. *)
Lemma openStreamFor_consistent (n : jsstring) :
  keeps_consistency (openStreamFor E n).
Proof.
  intros w Hw. destruct w as [sel cont md ctx0 e srcs ivs lg].
  unfold es_consistent in *. cbn in Hw.
  unfold openStreamFor. exec_step.
  destruct e as [i|]; exec_step;
    match goal with
    | |- context [event_source_constructs E ?h ?x] =>
        destruct (event_source_constructs E h x)
    end; exec_step.
  - rewrite length_alter.
    rewrite <- (length_alter close_source srcs i).
    apply consistent_after_open, all_closed_after_close, Hw.
  - apply consistent_closed, all_closed_after_close, Hw.
  - apply consistent_after_open, all_closed_without_es, Hw.
  - exact Hw.
Qed.


(** Where [EventSource] cannot be constructed, every call of
    [openStreamFor] registers one more timer and leaves no source open
    behind [es]. *)
Lemma openStreamFor_fallback (n : jsstring) (w : world) :
  (forall h x, event_source_constructs E h x = false) ->
  intervals (exec (openStreamFor E n) w) = S (intervals w)
  /\ es (exec (openStreamFor E n) w) = None.
Proof.
  intros Hno. destruct w as [sel cont md ctx0 e srcs ivs lg].
  unfold openStreamFor. exec_step.
  destruct e as [i|]; exec_step; rewrite Hno; exec_step;
    split; reflexivity.
Qed.

Lemma consistency_of_keeps {A : Type} (m : M A) :
  keeps_streams m -> keeps_consistency m.
Proof.
  intros Hm w Hw. destruct (Hm w) as [H1 H2].
  unfold es_consistent in *. rewrite H1, H2. exact Hw.
Qed.

Lemma consistency_bind {A B : Type} (m : M A) (f : A -> M B) :
  keeps_consistency m -> (forall a, keeps_consistency (f a)) ->
  keeps_consistency (m ≫= f).
Proof.
  intros Hm Hf w Hw. unfold mbind, M_bind.
  specialize (Hm w Hw). destruct (m w) as [[a|e] w1]; cbn in *.
  - exact (Hf a w1 Hm).
  - exact Hm.
Qed.

Lemma consistency_try_catch {A : Type} (m : M A) (h : exn -> M A) :
  keeps_consistency m -> (forall e, keeps_consistency (h e)) ->
  keeps_consistency (try_catch m h).
Proof.
  intros Hm Hh w Hw. unfold try_catch.
  specialize (Hm w Hw). destruct (m w) as [[a|e] w1]; cbn in *.
  - exact Hm.
  - exact (Hh e w1 Hm).
Qed.

(** Lines 406-409: the drop-down went back to no list. *)
Lemma close_current_consistent :
  keeps_consistency
    (w ← get ;
     match es w with
     | Some i => es_close i ;; modify (set_es None)
     | None => mret tt
     end).
Proof.
  intros w Hw. destruct w as [sel cont md ctx0 e srcs ivs lg].
  unfold es_consistent in *. cbn in Hw. exec_step.
  destruct e as [i|]; exec_step.
  - apply consistent_closed, all_closed_after_close, Hw.
  - exact Hw.
Qed.

Lemma select_change_consistent : keeps_consistency (select_change E).
Proof.
  unfold select_change.
  apply consistency_bind; [apply consistency_of_keeps, keeps_refreshList|].
  intros _. apply consistency_bind.
  { apply consistency_of_keeps. keeps. }
  intros v. destruct (negb (truthy v)).
  - apply close_current_consistent.
  - apply openStreamFor_consistent.
Qed.

Lemma newBtn_click_consistent : keeps_consistency (newBtn_click E).
Proof.
  unfold newBtn_click.
  apply consistency_bind; [apply consistency_of_keeps; keeps|].
  intros [name|]; [|apply consistency_of_keeps; keeps].
  destruct (negb (truthy name)); [apply consistency_of_keeps; keeps|].
  apply consistency_try_catch; [|intros e; apply consistency_of_keeps; keeps].
  apply consistency_bind; [apply consistency_of_keeps; keeps|]. intros _.
  apply consistency_bind;
    [apply consistency_of_keeps, keeps_refreshListsDropdown|]. intros _.
  apply consistency_bind; [apply consistency_of_keeps; keeps|]. intros _.
  apply consistency_bind; [apply consistency_of_keeps, keeps_refreshList|].
  intros _. apply openStreamFor_consistent.
Qed.

Lemma perform_consistent (a : action) : keeps_consistency (perform E a).
Proof.
  destruct a; cbn [perform].
  - unfold pick_option. apply consistency_bind.
    + apply consistency_of_keeps. keeps.
    + intros _. apply select_change_consistent.
  - apply newBtn_click_consistent.
  - apply consistency_of_keeps, keeps_renameBtn_click.
  - apply consistency_of_keeps, keeps_deleteBtn_click.
  - apply consistency_of_keeps, keeps_removeBtn_click.
  - apply consistency_of_keeps. unfold editBtn_click, openEditModal. keeps.
  - apply consistency_of_keeps, keeps_addBtn_click.
  - apply consistency_of_keeps, keeps_modalSave_click.
  - apply consistency_of_keeps. unfold modalCancel_click. keeps.
  - apply consistency_of_keeps, keeps_clearBtn_click.
  - apply consistency_of_keeps. unfold es_onmessage.
    keeps; apply keeps_refreshList.
  - apply consistency_of_keeps. unfold interval_tick.
    keeps; apply keeps_refreshList.
Qed.

Lemma run_consistent (acts : list action) (w : world) :
  es_consistent w -> es_consistent (run E acts w).
Proof.
  revert w. induction acts as [|a acts IH]; intros w Hw; [exact Hw|].
  cbn [run fold_left]. apply IH. exact (perform_consistent a w Hw).
Qed.

(** ** Further properties of the handlers *)

(** X7. Refresh never touches the selection, the modal, the editing
    context or the live-update channel, and it logs its mark first. *)
Theorem refreshList_only_changes_view (w : world) :
  same_but_view w (exec (refreshList E) w)
  /\ exists d, log (exec (refreshList E) w) = log w ++ EvRefresh :: d.
Proof.
  unfold same_but_view, refreshList.
  destruct w as [sel cont md ctx0 e srcs ivs lg].
  answer_cases; flatten_log; (split; [reflexivity | eexists; reflexivity]).
Qed.

(** X8. A push from the server and a tick of the polling timer never
    fail, even when the listing cannot be fetched: the rejection of the
    refresh they start is dropped. *)
Theorem background_refresh_never_fails (w : world) :
  outcome (es_onmessage E) w = Ok tt /\ outcome (interval_tick E) w = Ok tt
  /\ same_but_view w (exec (es_onmessage E) w)
  /\ same_but_view w (exec (interval_tick E) w).
Proof.
  unfold es_onmessage, interval_tick, same_but_view, refreshList.
  destruct w as [sel cont md ctx0 e srcs ivs lg].
  answer_cases; repeat split; reflexivity.
Qed.

(** X9. Saving without an editing context does nothing at all, and so
    does saving after an edit was opened and cancelled. *)
Theorem save_without_context_does_nothing (w : world) :
  (editingContext w = None -> modalSave_click E w = (Ok tt, w))
  /\ (forall m year genre,
        let w' := run E [ClickEdit m year genre; ClickCancel; ClickSave] w in
        log w' = log w /\ editingContext w' = None
        /\ modal_display (modal w') = str "none").
Proof.
  split.
  - intros Hctx. unfold modalSave_click. exec_step. rewrite Hctx. reflexivity.
  - intros m year genre. destruct w as [sel cont md ctx0 e srcs ivs lg].
    repeat split.
Qed.

(** X10. When the update request is rejected, the save handler stops
    there: the modal stays open on the same movie with the fields as
    typed, nothing is refreshed, and the failure is not reported. *)
Theorem save_rejected_keeps_modal (w : world) (ctx : context) :
  editingContext w = Some ctx ->
  let r := update_request ctx (modal w) (selected_list_name w) in
  fetch_fulfils E (log w ++ [EvRequest r]) r = false ->
  outcome (modalSave_click E) w = Throw FetchRejected
  /\ exec (modalSave_click E) w
     = set_log (log w ++ [EvRequest r; EvSettled r false]) w.
Proof.
  intros Hctx r Hrej. subst r. unfold update_request in *.
  destruct w as [sel cont md ctx0 e srcs ivs lg]. cbn in Hctx. subst ctx0.
  unfold modalSave_click. exec_step. rewrite Hrej. exec_step.
  flatten_log. split; reflexivity.
Qed.

(** X11. When the update request is answered, the modal is hidden and
    the editing context dropped, whether or not the refresh that follows
    succeeds; a second click on save then does nothing. *)
Theorem save_fulfilled_closes_modal (w : world) (ctx : context) :
  editingContext w = Some ctx ->
  let r := update_request ctx (modal w) (selected_list_name w) in
  fetch_fulfils E (log w ++ [EvRequest r]) r = true ->
  let w' := exec (modalSave_click E) w in
  editingContext w' = None
  /\ modal w' = hide_modal (modal w)
  /\ modalSave_click E w' = (Ok tt, w').
Proof.
  intros Hctx r Hok w'. subst r w'. unfold update_request in *.
  assert (Hstate : editingContext (exec (modalSave_click E) w) = None
                   /\ modal (exec (modalSave_click E) w) = hide_modal (modal w)).
  { destruct w as [sel cont md ctx0 e srcs ivs lg]. cbn in Hctx. subst ctx0.
    unfold modalSave_click, refreshList. exec_step. rewrite Hok.
    answer_cases; split; reflexivity. }
  destruct Hstate as [Hnone Hmodal]. repeat split; [exact Hnone | exact Hmodal |].
  unfold modalSave_click at 1. unfold mbind, M_bind, get. cbn.
  rewrite Hnone. reflexivity.
Qed.

(** X12. A declined confirmation ends remove, clear and delete at once:
    no request is sent and nothing but the log changes. *)
Theorem declined_confirmation_aborts (w : world) :
  (forall m year genre,
      confirm_answer E (log w) (remove_question m year genre) = false ->
      exec (removeBtn_click E m year genre) w
      = set_log (log w ++ [EvConfirm (remove_question m year genre) false]) w)
  /\ (confirm_answer E (log w)
        (str "Clear entire saved list? This cannot be undone.") = false ->
      exec (clearBtn_click E) w
      = set_log (log w ++ [EvConfirm
                             (str "Clear entire saved list? This cannot be undone.")
                             false]) w)
  /\ (forall s, list_select w = Some s ->
      confirm_answer E (log w) (delete_question (select_value s)) = false ->
      select_value s <> [] -> select_value s <> str "default" ->
      exec (deleteBtn_click E) w
      = set_log (log w ++ [EvConfirm (delete_question (select_value s)) false]) w).
Proof.
  split; [|split].
  - intros m year genre Hno. unfold removeBtn_click. exec_step.
    rewrite Hno. reflexivity.
  - intros Hno. unfold clearBtn_click. exec_step. rewrite Hno. reflexivity.
  - intros s Hs Hno Hne Hnd. unfold deleteBtn_click. exec_step.
    rewrite Hs. exec_step.
    assert (Hguard : negb (truthy (select_value s))
                     || jsstring_eqb (select_value s) (str "default") = false).
    { apply orb_false_iff. split.
      - destruct (select_value s); [congruence | reflexivity].
      - unfold jsstring_eqb. apply bool_decide_eq_false. exact Hnd. }
    rewrite Hguard. exec_step. rewrite Hno. reflexivity.
Qed.

(** X13. When the request that creates the list is rejected, the
    handler reports it in an alert and stops: the drop-down, the
    selection and the subscription are as before and nothing is
    refreshed. *)
Theorem create_rejected_alerts (w : world) (name : jsstring) :
  prompt_answer E (log w) (str "New list name:") [] = Some name ->
  name <> [] ->
  let r := post "/api/lists" {["name" := VStr (trim name)]} in
  fetch_fulfils E
    (log w ++ [EvPrompt (str "New list name:") [] (Some name); EvRequest r]) r
  = false ->
  outcome (newBtn_click E) w = Ok tt
  /\ exec (newBtn_click E) w
     = set_log (log w ++ [EvPrompt (str "New list name:") [] (Some name);
                          EvRequest r; EvSettled r false;
                          EvAlert (str "Could not create list: "
                                   ++ error_text E FetchRejected)]) w.
Proof.
  intros Hname Hne r Hrej. subst r.
  destruct w as [sel cont md ctx0 e srcs ivs lg]. cbn in Hname, Hrej.
  unfold newBtn_click. exec_step. rewrite Hname. exec_step.
  destruct name as [|c name]; [congruence|]. exec_step.
  rewrite <- app_assoc. cbn [app]. rewrite Hrej. exec_step.
  flatten_log. split; reflexivity.
Qed.

(** *** The drop-down after a reload *)

Lemma fold_append_options (names : list value) (opts : list jsstring) (i : nat) :
  fold_left (fun s n => append_option (ToString n) s) names (Select opts (Some i))
  = Select (opts ++ List.map ToString names) (Some i).
Proof.
  revert opts. induction names as [|n names IH]; intros opts; cbn [fold_left List.map].
  - rewrite app_nil_r. reflexivity.
  - unfold append_option at 2. cbn [options selectedIndex].
    rewrite IH, <- app_assoc. reflexivity.
Qed.

(** The reload, run: one request; on its answer the options are rebuilt,
    on its rejection nothing is touched. *)
Lemma refreshListsDropdown_run (w : world) (s : select_el) :
  list_select w = Some s ->
  let l1 := log w ++ [EvRequest lists_request] in
  refreshListsDropdown E w
  = if fetch_fulfils E l1 lists_request
    then (Ok tt,
          set_list_select
            (Some (dropdown_of (lists_reply E (l1 ++ [EvSettled lists_request true]))))
            (set_log (l1 ++ [EvSettled lists_request true]) w))
    else (Throw FetchRejected, set_log (l1 ++ [EvSettled lists_request false]) w).
Proof.
  intros Hs l1. subst l1.
  destruct w as [sel cont md ctx0 e srcs ivs lg]. cbn in Hs. subst sel.
  unfold refreshListsDropdown, lists_request. exec_step.
  destruct (fetch_fulfils E _ _); exec_step; [|reflexivity].
  unfold clear_options, dropdown_of.
  unfold append_option at 2. cbn [options selectedIndex app].
  rewrite fold_append_options. reflexivity.
Qed.

Lemma row_name_not_default (r : row) :
  row_name r <> VStr (str "default") -> ToString (row_name r) <> str "default".
Proof.
  destruct r as [n|[|c cells]]; cbn [row_name].
  - destruct (truthy n); cbn [ToString]; [congruence | discriminate].
  - discriminate.
  - cbn [ToString]. congruence.
Qed.

Lemma dropdown_of_no_default (rows : list row) :
  ~ In (str "default") (options (dropdown_of rows)).
Proof.
  unfold dropdown_of. cbn [options]. intros [H|H]; [discriminate H|].
  apply in_map_iff in H as (n & Hn & Hin).
  apply filter_In in Hin as [Hin Hkeep].
  apply in_map_iff in Hin as (r & <- & _).
  apply negb_true_iff, bool_decide_eq_false in Hkeep.
  exact (row_name_not_default r Hkeep Hn).
Qed.

(** What [select.value = v] selects. *)
Lemma index_of_spec (v : jsstring) (l : list jsstring) :
  match index_of v l with
  | Some i => l !! i = Some v
  | None => ~ In v l
  end.
Proof.
  induction l as [|x l IH]; cbn [index_of]; [intros []|].
  unfold jsstring_eqb. destruct (bool_decide_reflect (x = v)) as [->|Hne].
  - reflexivity.
  - destruct (index_of v l) as [i|]; cbn.
    + exact IH.
    + intros [H|H]; [congruence | exact (IH H)].
Qed.

Lemma select_value_set (v : jsstring) (s : select_el) :
  (In v (options s) -> select_value (set_select_value v s) = v)
  /\ (~ In v (options s) -> select_value (set_select_value v s) = []).
Proof.
  unfold select_value, set_select_value.
  pose proof (index_of_spec v (options s)) as H.
  destruct (index_of v (options s)) as [i|]; cbn [options selectedIndex].
  - unfold jsstring in *. rewrite H. cbn. split; [reflexivity | intros Hn; exfalso; apply Hn].
    apply list_elem_of_In. apply list_elem_of_lookup. eauto.
  - split; [intros Hin; contradiction | reflexivity].
Qed.

Lemma select_empty_after_reload (rows : list row) :
  select_value (set_select_value [] (dropdown_of rows)) = []
  /\ select_value (dropdown_of rows) = [].
Proof. split; reflexivity. Qed.

(** X14. A reload that the server answers rebuilds the drop-down from
    the reply: first the placeholder, which is selected, then the names in
    the order of the reply; 'default' is never offered. A reload that is
    rejected leaves the drop-down as it was. *)
Theorem refreshListsDropdown_rebuilds (w : world) (s : select_el) :
  list_select w = Some s ->
  let l1 := log w ++ [EvRequest lists_request] in
  let w' := exec (refreshListsDropdown E) w in
  (fetch_fulfils E l1 lists_request = true ->
   list_select w'
   = Some (dropdown_of (lists_reply E (l1 ++ [EvSettled lists_request true])))
   /\ selected_list_name w' = []
   /\ (forall o, list_select w' = Some o -> ~ In (str "default") (options o)))
  /\ (fetch_fulfils E l1 lists_request = false ->
      outcome (refreshListsDropdown E) w = Throw FetchRejected
      /\ same_but_log w w').
Proof.
  intros Hs l1 w'. subst l1 w'. unfold exec, outcome.
  rewrite (refreshListsDropdown_run w s Hs). cbv zeta.
  destruct (fetch_fulfils E _ _); split; intros Hf; try discriminate Hf.
  - destruct w as [sel cont md ctx0 e srcs ivs lg]. cbn.
    split; [reflexivity|]. split; [reflexivity|].
    intros o Ho. injection Ho as <-. apply dropdown_of_no_default.
  - destruct w as [sel cont md ctx0 e srcs ivs lg]. split; reflexivity.
Qed.

(** With a server that answers, Refresh returns normally. *)
Lemma refreshList_answered (w : world) :
  (forall h r, fetch_fulfils E h r = true) ->
  exists c l, refreshList E w = (Ok tt, set_listContainer c (set_log l w)).
Proof.
  intros Hf. destruct w as [sel cont md ctx0 e srcs ivs lg].
  unfold refreshList. exec_step.
  destruct (truthy (list_name_of sel)); exec_step.
  - rewrite Hf. exec_step. eexists. eexists. reflexivity.
  - eexists. eexists. reflexivity.
Qed.

Lemma guard_passes (n : jsstring) :
  n <> [] -> n <> str "default" ->
  negb (truthy n) || jsstring_eqb n (str "default") = false.
Proof.
  intros Hne Hnd. apply orb_false_iff. split.
  - destruct n; [congruence | reflexivity].
  - unfold jsstring_eqb. apply bool_decide_eq_false. exact Hnd.
Qed.

(** X15. A confirmed delete that the server answers sends the delete
    and the reload and nothing else, leaves no list selected and the
    'pick a list' paragraph in the container; the subscription of the
    deleted list is not closed. *)
Theorem delete_confirmed_clears_selection (w : world) (s : select_el) :
  list_select w = Some s ->
  select_value s <> [] -> select_value s <> str "default" ->
  confirm_answer E (log w) (delete_question (select_value s)) = true ->
  (forall h r, fetch_fulfils E h r = true) ->
  let w' := exec (deleteBtn_click E) w in
  outcome (deleteBtn_click E) w = Ok tt
  /\ selected_list_name w' = []
  /\ listContainer w' = set_innerHTML [pick_a_list] (listContainer w)
  /\ sent_requests (new_events w w')
     = [Request DELETE "/api/lists" [] (Some {["name" := VStr (select_value s)]});
        lists_request]
  /\ es w' = es w /\ event_sources w' = event_sources w.
Proof.
  intros Hs Hne Hnd Hyes Hf w'. subst w'.
  destruct w as [sel cont md ctx0 e srcs ivs lg]. cbn in Hs, Hyes. subst sel.
  unfold deleteBtn_click. exec_step.
  rewrite (guard_passes _ Hne Hnd). exec_step. rewrite Hyes. exec_step.
  rewrite Hf. exec_step.
  match goal with
  | |- context [refreshListsDropdown E ?W] =>
      rewrite (refreshListsDropdown_run W s eq_refl)
  end.
  cbv zeta. rewrite Hf. exec_step.
  unfold refreshList. exec_step.
  change (list_name_of (Some ?x)) with (select_value x).
  rewrite (proj1 (select_empty_after_reload _)). exec_step.
  flatten_log. rewrite drop_app_length. repeat split.
Qed.

(** X16. Rename and delete never touch the live-update channel: [es]
    and every [EventSource] are after them what they were before, so a
    renamed or deleted list keeps its subscription under the old name. *)
Theorem list_operations_keep_subscription (w : world) :
  (es (exec (renameBtn_click E) w) = es w
   /\ event_sources (exec (renameBtn_click E) w) = event_sources w)
  /\ (es (exec (deleteBtn_click E) w) = es w
      /\ event_sources (exec (deleteBtn_click E) w) = event_sources w).
Proof.
  split; [exact (keeps_renameBtn_click w) | exact (keeps_deleteBtn_click w)].
Qed.

(** *** Picking an entry of the drop-down *)

Lemma open_sources_closed (l : list event_source) :
  all_closed l -> List.filter es_open l = [].
Proof.
  induction l as [|x l IH]; intros H; [reflexivity|].
  cbn [List.filter]. rewrite (H 0%nat x eq_refl).
  apply IH. intros j y Hj. exact (H (S j) y Hj).
Qed.

Lemma closed_sources_closed (w : world) :
  es_consistent w -> all_closed (closed_sources w).
Proof.
  unfold es_consistent, closed_sources. intros Hw.
  destruct (es w) as [i|].
  - apply all_closed_after_close. exact Hw.
  - apply all_closed_without_es. exact Hw.
Qed.

(** Opening a stream where [EventSource] can be constructed: the source
    [es] referred to is closed, a new one is opened for the list and [es]
    refers to it. *)
Lemma openStreamFor_opens (n : jsstring) (w : world) :
  event_source_constructs E (log w) n = true ->
  openStreamFor E n w
  = (Ok tt,
     set_es (Some (length (event_sources w)))
       (set_event_sources (closed_sources w ++ [EventSource n true]) w)).
Proof.
  intros Hc. destruct w as [sel cont md ctx0 e srcs ivs lg]. cbn in Hc.
  unfold openStreamFor, closed_sources. exec_step.
  destruct e as [i|]; exec_step; rewrite Hc; exec_step; [|reflexivity].
  rewrite length_alter. reflexivity.
Qed.

Lemma one_open_source (l : list event_source) (n : jsstring) :
  all_closed l ->
  length (List.filter es_open (l ++ [EventSource n true])) = 1%nat.
Proof.
  intros Hl. rewrite List.filter_app, (open_sources_closed l Hl). reflexivity.
Qed.

Lemma pick_selects (s : select_el) (i : nat) (n : jsstring) :
  options s !! i = Some n ->
  (if (i <? length (options s))%nat then Select (options s) (Some i) else s)
  = Select (options s) (Some i)
  /\ select_value (Select (options s) (Some i)) = n.
Proof.
  intros Hi. assert (Hlt : (i < length (options s))%nat).
  { apply lookup_lt_is_Some. eauto. }
  apply Nat.ltb_lt in Hlt. rewrite Hlt. split; [reflexivity|].
  unfold select_value. cbn [selectedIndex options].
  unfold jsstring in *. rewrite Hi. reflexivity.
Qed.

(** X17. Picking the placeholder closes the subscription: no
    [EventSource] is left open, nothing is requested, and the container
    shows the 'pick a list' paragraph; polling timers keep running. *)
Theorem pick_no_list_closes_stream (w : world) (s : select_el) :
  list_select w = Some s ->
  options s !! 0%nat = Some [] ->
  es_consistent w ->
  let w' := exec (pick_option E 0) w in
  outcome (pick_option E 0) w = Ok tt
  /\ es w' = None /\ open_sources w' = 0%nat
  /\ intervals w' = intervals w
  /\ sent_requests (new_events w w') = []
  /\ selected_list_name w' = []
  /\ listContainer w' = set_innerHTML [pick_a_list] (listContainer w).
Proof.
  intros Hs H0 Hw w'. subst w'.
  destruct (pick_selects s 0 [] H0) as [Hpick Hval].
  pose proof (closed_sources_closed w Hw) as Hclosed.
  destruct w as [sel cont md ctx0 e srcs ivs lg]. cbn in Hs. subst sel.
  unfold closed_sources in Hclosed. cbn in Hclosed.
  unfold pick_option, select_change, refreshList, open_sources. exec_step.
  rewrite Hpick. exec_step.
  change (list_name_of (Some ?x)) with (select_value x).
  rewrite Hval. exec_step. rewrite Hval. exec_step.
  destruct e as [i|]; exec_step; rewrite (open_sources_closed _ Hclosed);
    rewrite drop_app_length; repeat split; exact Hval.
Qed.

(** X18. Picking a list, with a server that answers and a browser that
    has [EventSource]: the listing of that list is rendered, and exactly
    one source is open afterwards, the new one, for the picked list. *)
Theorem pick_list_subscribes (w : world) (s : select_el) (i : nat) (n : jsstring) :
  list_select w = Some s ->
  options s !! i = Some n -> n <> [] ->
  es_consistent w ->
  (forall h r, fetch_fulfils E h r = true) ->
  (forall h x, event_source_constructs E h x = true) ->
  let w' := exec (pick_option E i) w in
  outcome (pick_option E i) w = Ok tt
  /\ selected_list_name w' = n
  /\ sent_requests (new_events w w') = [list_request n]
  /\ (exists l, listContainer w' = renderList (listContainer w) l)
  /\ es w' = Some (length (event_sources w))
  /\ event_sources w' !! length (event_sources w) = Some (EventSource n true)
  /\ open_sources w' = 1%nat
  /\ intervals w' = intervals w.
Proof.
  intros Hs Hi Hn Hw Hf Hc w'. subst w'.
  destruct (pick_selects s i n Hi) as [Hpick Hval].
  pose proof (closed_sources_closed w Hw) as Hclosed.
  assert (Htruthy : truthy n = true) by (destruct n; [congruence | reflexivity]).
  destruct w as [sel cont md ctx0 e srcs ivs lg]. cbn in Hs. subst sel.
  unfold closed_sources in Hclosed. cbn in Hclosed.
  unfold pick_option, select_change, refreshList, open_sources. exec_step.
  rewrite Hpick. exec_step.
  change (list_name_of (Some ?x)) with (select_value x).
  rewrite Hval, Htruthy. exec_step. rewrite Hf. exec_step.
  rewrite Hval, Htruthy. exec_step.
  match goal with
  | |- context [openStreamFor E n ?W] =>
      rewrite (openStreamFor_opens n W (Hc _ _))
  end.
  unfold closed_sources. cbn.
  change (list_name_of (Some ?x)) with (select_value x). rewrite Hval.
  flatten_log. rewrite drop_app_length.
  rewrite (one_open_source _ n Hclosed).
  assert (Hlen : length (match e with
                         | Some j => alter close_source j srcs
                         | None => srcs
                         end) = length srcs).
  { destruct e; [apply length_alter | reflexivity]. }
  repeat split; try reflexivity.
  - eexists. reflexivity.
  - rewrite <- Hlen. apply list_lookup_middle. reflexivity.
Qed.

(** X19. Picking a list whose listing cannot be fetched: the handler
    stops at the refresh, so the drop-down shows the new list while the
    container and the subscription stay on what they showed before. *)
Theorem pick_list_fetch_rejected (w : world) (s : select_el) (i : nat) (n : jsstring) :
  list_select w = Some s ->
  options s !! i = Some n -> n <> [] ->
  fetch_fulfils E (log w ++ [EvRefresh; EvRequest (list_request n)])
                (list_request n) = false ->
  let w' := exec (pick_option E i) w in
  outcome (pick_option E i) w = Throw FetchRejected
  /\ selected_list_name w' = n
  /\ listContainer w' = listContainer w
  /\ es w' = es w /\ event_sources w' = event_sources w
  /\ intervals w' = intervals w.
Proof.
  intros Hs Hi Hn Hrej w'. subst w'.
  destruct (pick_selects s i n Hi) as [Hpick Hval].
  assert (Htruthy : truthy n = true) by (destruct n; [congruence | reflexivity]).
  destruct w as [sel cont md ctx0 e srcs ivs lg]. cbn in Hs, Hrej. subst sel.
  unfold pick_option, select_change, refreshList. exec_step.
  rewrite Hpick. exec_step.
  change (list_name_of (Some ?x)) with (select_value x).
  rewrite Hval, Htruthy. exec_step.
  rewrite <- app_assoc. cbn [app]. unfold list_request in Hrej. rewrite Hrej.
  exec_step. change (list_name_of (Some ?x)) with (select_value x).
  rewrite Hval. repeat split.
Qed.

(** *** Creating a list and loading the page *)

(** X20. A create that the server answers, in a browser that has
    [EventSource], ends with exactly one open source, for the trimmed name
    that was typed. The selection is that name when the reloaded
    drop-down offers it and empty otherwise; for the name 'default', which
    the drop-down never offers, the stream is opened with no list
    selected. *)
Theorem create_subscribes_to_typed_name (w : world) (s : select_el) (name : jsstring) :
  list_select w = Some s ->
  prompt_answer E (log w) (str "New list name:") [] = Some name ->
  name <> [] ->
  es_consistent w ->
  (forall h r, fetch_fulfils E h r = true) ->
  (forall h x, event_source_constructs E h x = true) ->
  let w' := exec (newBtn_click E) w in
  outcome (newBtn_click E) w = Ok tt
  /\ es w' = Some (length (event_sources w))
  /\ event_sources w' !! length (event_sources w)
     = Some (EventSource (trim name) true)
  /\ open_sources w' = 1%nat
  /\ (selected_list_name w' = trim name \/ selected_list_name w' = [])
  /\ (trim name = str "default" -> selected_list_name w' = []).
Proof.
  intros Hs Hname Hne Hw Hf Hc w'. subst w'.
  pose proof (closed_sources_closed w Hw) as Hclosed.
  assert (Htruthy : truthy name = true) by (destruct name; [congruence | reflexivity]).
  destruct w as [sel cont md ctx0 e srcs ivs lg]. cbn in Hs, Hname. subst sel.
  unfold closed_sources in Hclosed. cbn in Hclosed.
  unfold newBtn_click, open_sources. exec_step.
  rewrite Hname. exec_step. rewrite Htruthy. exec_step. rewrite Hf. exec_step.
  match goal with
  | |- context [refreshListsDropdown E ?W] =>
      rewrite (refreshListsDropdown_run W s eq_refl)
  end.
  cbv zeta. rewrite Hf. exec_step.
  match goal with
  | |- context [refreshList E ?W] =>
      destruct (refreshList_answered W Hf) as (c & l & ->)
  end.
  exec_step.
  match goal with
  | |- context [openStreamFor E ?n ?W] =>
      rewrite (openStreamFor_opens n W (Hc _ _))
  end.
  unfold closed_sources. cbn.
  change (list_name_of (Some ?x)) with (select_value x).
  rewrite (one_open_source _ (trim name) Hclosed).
  assert (Hlen : length (match e with
                         | Some j => alter close_source j srcs
                         | None => srcs
                         end) = length srcs).
  { destruct e; [apply length_alter | reflexivity]. }
  match goal with
  | |- context [set_select_value (trim name) ?d] =>
      pose proof (select_value_set (trim name) d) as [Hin Hout]
  end.
  repeat split; try reflexivity.
  - rewrite <- Hlen. apply list_lookup_middle. reflexivity.
  - match goal with
    | |- context [set_select_value (trim name) ?d] =>
        destruct (in_dec (fun a b : jsstring => decide (a = b))
                         (trim name) (options d)) as [Hy|Hn]
    end; [left; exact (Hin Hy) | right; exact (Hout Hn)].
  - intros Hdef. apply Hout. rewrite Hdef. apply dropdown_of_no_default.
Qed.

(** X21. The initial load, with a server that answers: one request,
    for the names of the lists; no list is selected, the container shows
    the 'pick a list' paragraph, and no stream is opened. *)
Theorem initial_load_selects_nothing (w : world) (s : select_el) :
  list_select w = Some s ->
  (forall h r, fetch_fulfils E h r = true) ->
  let w' := exec (initial_load E) w in
  outcome (initial_load E) w = Ok tt
  /\ sent_requests (new_events w w') = [lists_request]
  /\ selected_list_name w' = []
  /\ listContainer w' = set_innerHTML [pick_a_list] (listContainer w)
  /\ es w' = es w /\ event_sources w' = event_sources w
  /\ intervals w' = intervals w.
Proof.
  intros Hs Hf w'. subst w'.
  destruct w as [sel cont md ctx0 e srcs ivs lg]. cbn in Hs. subst sel.
  unfold initial_load. exec_step.
  match goal with
  | |- context [refreshListsDropdown E ?W] =>
      rewrite (refreshListsDropdown_run W s eq_refl)
  end.
  cbv zeta. rewrite Hf. exec_step.
  unfold refreshList. exec_step.
  change (list_name_of (Some ?x)) with (select_value x).
  rewrite (proj1 (select_empty_after_reload _)). exec_step.
  flatten_log. rewrite drop_app_length. repeat split.
Qed.

(** *** The edit modal, opened from an entry *)

(** X22. Opening the modal from an entry and saving without typing
    sends the entry's own title, year and genre back as new values (each
    when not blank), with the id of the movie, for a title, year and genre
    without line break; where the page has the synopsis field, the synopsis
    goes back too when it is not empty, with its line breaks as the
    textarea reads them: CR LF and CR as LF. *)
Theorem edit_then_save_sends_fields_back (w : world) (m : movie)
    (year genre : jsstring) :
  single_line (movie_title m) -> single_line year -> single_line genre ->
  let w1 := exec (editBtn_click m year genre) w in
  let p := save_payload (Context (movie_id m) year genre) (modal w1)
             (selected_list_name w) in
  let synopsis := normalize_newlines (synopsis_or_empty m) in
  (exists rest,
      new_events w1 (exec (modalSave_click E) w1)
      = EvRequest (post "/api/update" p) :: rest)
  /\ p !! "id" = Some (movie_id m)
  /\ p !! "list_name" = Some (VStr (selected_list_name w))
  /\ p !! "new_title" = trimmed_entry (movie_title m)
  /\ p !! "new_year" = trimmed_entry year
  /\ p !! "new_genre" = trimmed_entry genre
  /\ (modalSynopsis (modal w) <> None ->
      p !! "new_synopsis"
      = if truthy synopsis
        then Some (VStr (slice0 250 (trim synopsis)))
        else None).
Proof.
  intros _ _ _ w1 p synopsis. subst w1 p synopsis.
  destruct w as [sel cont md ctx0 e srcs ivs lg].
  split.
  - unfold editBtn_click, openEditModal, modalSave_click, refreshList.
    answer_cases; flatten_log; rewrite ?drop_app_length; eexists; reflexivity.
  - unfold editBtn_click, openEditModal, edit_detail_of. exec_step.
    match goal with
    | |- context [save_payload ?c ?d ?n] =>
        destruct (save_payload_built c d n) as (Hid & Hln & Ht & Hy & Hg & Hsyn)
    end.
    cbn in Ht, Hy, Hg, Hsyn.
    repeat split; try assumption.
    intros Hta. rewrite Hsyn. unfold synopsis_field. cbn.
    destruct (modalSynopsis md); [reflexivity | congruence].
Qed.

(** X23. An update payload has no property besides the movie id, the
    list name and the four new values; the year and genre the movie was
    listed under when the modal was opened are not sent. *)
Theorem save_payload_properties (ctx : context) (md : modal_state)
    (list_name : jsstring) (k : string) :
  is_Some (save_payload ctx md list_name !! k) -> In k payload_keys.
Proof.
  intros [v Hv].
  destruct (in_dec string_dec k payload_keys) as [Hin|Hout]; [exact Hin|].
  exfalso.
  assert (Hk : forall k', In k' payload_keys -> k' <> k).
  { intros k' Hk' ->. exact (Hout Hk'). }
  unfold save_payload in Hv. cbv zeta in Hv.
  rewrite lookup_insert_ne in Hv by (apply Hk; cbn; tauto).
  destruct (truthy match modalSynopsis md with
                   | Some v0 => v0
                   | None => []
                   end);
    rewrite ?lookup_insert_ne in Hv by (apply Hk; cbn; tauto);
    rewrite !and_trim_other in Hv by (apply Hk; cbn; tauto);
    rewrite lookup_singleton_ne in Hv by (apply Hk; cbn; tauto);
    discriminate Hv.
Qed.

(** *** Refresh after the response, path by path *)

#[local] Arguments awaits_then_refresh : simpl never.

Lemma awaits_refresh (h rest : list event) :
  awaits_then_refresh E h [] (EvRefresh :: rest).
Proof. exists rest. reflexivity. Qed.

Lemma awaits_fulfilled (h : list event) (r : request) (rs : list request)
    (d : list event) :
  fetch_fulfils E (h ++ [EvRequest r]) r = true ->
  awaits_then_refresh E (h ++ [EvRequest r; EvSettled r true]) rs d ->
  awaits_then_refresh E h (r :: rs) (EvRequest r :: EvSettled r true :: d).
Proof.
  intros Hf Hd. unfold awaits_then_refresh; fold awaits_then_refresh.
  cbv zeta. rewrite Hf. exists d. split; [reflexivity | exact Hd].
Qed.

Lemma awaits_rejected (h : list event) (r : request) (rs : list request)
    (d : list event) :
  fetch_fulfils E (h ++ [EvRequest r]) r = false ->
  ~ In EvRefresh d ->
  awaits_then_refresh E h (r :: rs) (EvRequest r :: EvSettled r false :: d).
Proof.
  intros Hf Hd. unfold awaits_then_refresh; fold awaits_then_refresh.
  cbv zeta. rewrite Hf. exists d. split; [reflexivity | exact Hd].
Qed.

(** With a request to wait for, every entry into Refresh has a response
    before it. *)
Lemma awaits_then_refresh_after_response (h : list event) (r : request)
    (rs : list request) (d : list event) :
  awaits_then_refresh E h (r :: rs) d -> refresh_after_a_response d.
Proof.
  unfold awaits_then_refresh; fold awaits_then_refresh. cbv zeta.
  intros (d' & -> & Hd') pre post Hsplit.
  destruct pre as [|x [|y pre]]; [discriminate Hsplit | discriminate Hsplit |].
  injection Hsplit as <- <- Hsplit.
  destruct (fetch_fulfils E (h ++ [EvRequest r]) r).
  - exists r. right. left. reflexivity.
  - exfalso. apply Hd'. rewrite Hsplit. apply in_or_app. right. left. reflexivity.
Qed.

Ltac no_refresh :=
  let H := fresh "H" in
  intros H; simpl in H;
  repeat (destruct H as [H|H]; [discriminate H|]); exact H.

Ltac oracle_known :=
  flatten_log;
  match goal with
  | H : fetch_fulfils E _ _ = _ |- fetch_fulfils E _ _ = _ =>
      flatten_log in H; exact H
  end.

Ltac await_order :=
  repeat first
    [ apply awaits_refresh
    | apply awaits_fulfilled; [oracle_known|]
    | apply awaits_rejected; [oracle_known | no_refresh] ].

(** The events of a handler, read off its final log. *)
Ltac read_events :=
  answer_cases; flatten_log; rewrite ?drop_app_length;
  try (eexists; split; [reflexivity|]); await_order.

(** The create path once the name is typed. *)
Lemma newBtn_click_awaits (w : world) (s : select_el) (name : jsstring) :
  list_select w = Some s ->
  prompt_answer E (log w) (str "New list name:") [] = Some name ->
  name <> [] ->
  let asked := EvPrompt (str "New list name:") [] (Some name) in
  exists d,
    new_events w (exec (newBtn_click E) w) = asked :: d
    /\ awaits_then_refresh E (log w ++ [asked])
         [post "/api/lists" {["name" := VStr (trim name)]}; lists_request] d.
Proof.
  destruct w as [sel cont md ctx0 e srcs ivs lg]. intros Hs Hname Hne asked.
  subst asked. cbn in Hs, Hname. subst sel.
  unfold newBtn_click, refreshListsDropdown.
  exec_step. rewrite Hname. exec_step.
  destruct name as [|c name]; [congruence|]. exec_step.
  do 2 (match goal with
        | |- context [fetch_fulfils E ?h ?r] =>
            destruct (fetch_fulfils E h r) eqn:?
        end; exec_step;
        [|flatten_log; rewrite ?drop_app_length;
          eexists; split; [reflexivity|]; await_order]).
  match goal with
  | |- context [refreshList E ?W] =>
      destruct (refreshList_events W) as (d1 & Hlog);
      unfold exec in Hlog;
      destruct (refreshList E W) as [r1 W2]
  end.
  cbn in Hlog. flatten_log in Hlog.
  destruct r1 as [[]|err].
  - pose proof (openStreamFor_log (trim (c :: name)) W2) as Hopen.
    unfold exec in Hopen.
    destruct (openStreamFor E (trim (c :: name)) W2) as [r2 W3].
    cbn in Hopen.
    destruct r2 as [[]|err]; cbn; rewrite ?Hopen, ?Hlog; flatten_log;
      rewrite ?drop_app_length; eexists; (split; [reflexivity|]); await_order.
  - cbn. rewrite Hlog. flatten_log.
    rewrite ?drop_app_length; eexists; (split; [reflexivity|]); await_order.
Qed.

(** The change of the drop-down enters Refresh before anything else. *)
Lemma select_change_refreshes_first (w : world) :
  exists rest, new_events w (exec (select_change E) w) = EvRefresh :: rest.
Proof.
  destruct (refreshList_events w) as (d & Hd).
  unfold select_change. exec_step.
  destruct (refreshList E w) as [r1 w1]. cbn in Hd.
  destruct r1 as [[]|err]; cbn.
  - destruct (list_select w1) as [s1|]; cbn.
    + destruct (truthy (select_value s1)); cbn.
      * pose proof (openStreamFor_log (select_value s1) w1) as Ho.
        unfold exec in Ho. rewrite Ho, Hd, drop_app_length. eauto.
      * destruct (es w1); cbn; rewrite Hd, drop_app_length; eauto.
    + rewrite Hd, drop_app_length. eauto.
  - rewrite Hd, drop_app_length. eauto.
Qed.

(** C8, amended. Every mutation path that has a request of its own sends
    it, waits for the response, and enters Refresh right after the response
    has arrived and not before: add, remove and clear (once confirmed), save
    (with an editing context), and create, rename and delete (once the name
    is typed or the question confirmed), where the reload of the drop-down
    is awaited too before the Refresh. When a response does not arrive the
    handler ends without any Refresh. The change of the drop-down has no
    request of its own: its first step is the Refresh. *)
Theorem refresh_awaits_response (w : world) :
  (forall id,
      awaits_then_refresh E (log w)
        [post "/api/add"
              (<["list_name" := VStr (selected_list_name w)]> {["id" := id]})]
        (new_events w (exec (addBtn_click E id) w)))
  /\ (forall m year genre,
      let asked := EvConfirm (remove_question m year genre) true in
      confirm_answer E (log w) (remove_question m year genre) = true ->
      exists d,
        new_events w (exec (removeBtn_click E m year genre) w) = asked :: d
        /\ awaits_then_refresh E (log w ++ [asked])
             [post "/api/remove"
                   (<["list_name" := VStr (selected_list_name w)]>
                    (<["genre" := VStr genre]>
                     (<["year" := VStr year]> {["id" := movie_id m]})))] d)
  /\ (forall ctx, editingContext w = Some ctx ->
      awaits_then_refresh E (log w)
        [post "/api/update" (save_payload ctx (modal w) (selected_list_name w))]
        (new_events w (exec (modalSave_click E) w)))
  /\ (let question := str "Clear entire saved list? This cannot be undone." in
      let asked := EvConfirm question true in
      confirm_answer E (log w) question = true ->
      exists d,
        new_events w (exec (clearBtn_click E) w) = asked :: d
        /\ awaits_then_refresh E (log w ++ [asked])
             [post "/api/clear" {["list_name" := VStr (selected_list_name w)]}] d)
  /\ (forall s, list_select w = Some s ->
      (forall name,
          prompt_answer E (log w) (str "New list name:") [] = Some name ->
          name <> [] ->
          let asked := EvPrompt (str "New list name:") [] (Some name) in
          exists d,
            new_events w (exec (newBtn_click E) w) = asked :: d
            /\ awaits_then_refresh E (log w ++ [asked])
                 [post "/api/lists" {["name" := VStr (trim name)]};
                  lists_request] d)
      /\ (select_value s <> [] -> select_value s <> str "default" ->
          (forall newName,
              prompt_answer E (log w) (str "Rename list to:") (select_value s)
              = Some newName ->
              newName <> [] -> newName <> select_value s ->
              let asked :=
                EvPrompt (str "Rename list to:") (select_value s) (Some newName) in
              exists d,
                new_events w (exec (renameBtn_click E) w) = asked :: d
                /\ awaits_then_refresh E (log w ++ [asked])
                     [post "/api/lists/rename"
                           (<["new" := VStr (trim newName)]>
                            {["old" := VStr (select_value s)]});
                      lists_request] d)
          /\ (let asked := EvConfirm (delete_question (select_value s)) true in
              confirm_answer E (log w) (delete_question (select_value s)) = true ->
              exists d,
                new_events w (exec (deleteBtn_click E) w) = asked :: d
                /\ awaits_then_refresh E (log w ++ [asked])
                     [Request DELETE "/api/lists" []
                              (Some {["name" := VStr (select_value s)]});
                      lists_request] d)))
  /\ awaits_then_refresh E (log w) [] (new_events w (exec (select_change E) w)).
Proof.
  split; [|split; [|split; [|split; [|split]]]].
  - intros id. unfold addBtn_click, refreshList. read_events.
  - intros m year genre asked Hyes. subst asked.
    unfold removeBtn_click, refreshList. exec_step. rewrite Hyes. read_events.
  - intros ctx Hctx. destruct w as [sel cont md ctx0 e srcs ivs lg].
    cbn in Hctx. subst ctx0.
    unfold modalSave_click, refreshList. read_events.
  - intros question asked Hyes. subst asked question.
    unfold clearBtn_click, refreshList. exec_step. rewrite Hyes. read_events.
  - intros s Hs. split.
    + intros name Hname Hne. exact (newBtn_click_awaits w s name Hs Hname Hne).
    + intros Hsel Hdef.
      assert (Hguard : negb (truthy (select_value s))
                       || jsstring_eqb (select_value s) (str "default") = false).
      { unfold jsstring_eqb. rewrite bool_decide_eq_false_2 by exact Hdef.
        destruct (select_value s); [congruence | reflexivity]. }
      destruct w as [sel cont md ctx0 e srcs ivs lg]. cbn in Hs. subst sel.
      split.
      * intros newName Hname Hne Hnew asked. subst asked. cbn in Hname.
        assert (Hsame : negb (truthy newName)
                        || jsstring_eqb newName (select_value s) = false).
        { unfold jsstring_eqb. rewrite bool_decide_eq_false_2 by exact Hnew.
          destruct newName; [congruence | reflexivity]. }
        unfold renameBtn_click, refreshListsDropdown, refreshList.
        exec_step. rewrite Hguard. exec_step. rewrite Hname. exec_step.
        rewrite Hsame. read_events.
      * intros asked Hyes. subst asked. cbn in Hyes.
        unfold deleteBtn_click, refreshListsDropdown, refreshList.
        exec_step. rewrite Hguard. exec_step. rewrite Hyes. read_events.
  - destruct (select_change_refreshes_first w) as (rest & Hrest).
    rewrite Hrest. apply awaits_refresh.
Qed.

End HandlerFacts.

Section Counting.

Context {A : Type} (f : A -> bool).

Lemma filter_none (l : list A) :
  (forall j x, l !! j = Some x -> f x = false) -> List.filter f l = [].
Proof.
  induction l as [|x l IH]; intros H; [reflexivity|].
  cbn [List.filter]. rewrite (H 0%nat x eq_refl).
  apply IH. intros j y Hj. exact (H (S j) y Hj).
Qed.

(** When one index at most can hold a selected element, at most one
    element is selected. *)
Lemma filter_at_most_one (l : list A) (o : option nat) :
  (forall j x, l !! j = Some x -> f x = true -> o = Some j) ->
  (length (List.filter f l) <= 1)%nat.
Proof.
  revert o. induction l as [|x l IH]; intros o H; [cbn; lia|].
  cbn [List.filter]. destruct (f x) eqn:Hx.
  - rewrite filter_none; [cbn; lia|].
    intros j y Hj. destruct (f y) eqn:Hy; [|reflexivity].
    pose proof (H 0%nat x eq_refl Hx) as H0.
    pose proof (H (S j) y Hj Hy) as H1. congruence.
  - apply (IH (match o with Some (S k) => Some k | _ => None end)).
    intros j y Hj Hy. rewrite (H (S j) y Hj Hy). reflexivity.
Qed.

End Counting.

Lemma consistent_open_sources (w : world) :
  es_consistent w -> (open_sources w <= 1)%nat.
Proof. intros Hw. exact (filter_at_most_one es_open (event_sources w) (es w) Hw). Qed.

Lemma fresh_page_consistent (w : world) :
  event_sources w = [] -> es_consistent w.
Proof. intros Hw i s Hi. rewrite Hw in Hi. discriminate Hi. Qed.

(** After any sequence of actions at most one [EventSource] is open, and
    it is the one [es] refers to. *)
Lemma at_most_one_open_source (E : env) (acts : list action) (w : world) :
  es_consistent w ->
  (open_sources (run E acts w) <= 1)%nat /\ es_consistent (run E acts w).
Proof.
  intros Hw. pose proof (run_consistent E acts w Hw) as H.
  split; [apply consistent_open_sources|]; exact H.
Qed.

(** C1, at the failing input. Without [EventSource], picking one list and
    then another leaves two polling timers running: the second fallback
    did not tear down the first. *)
Theorem polling_timers_pile_up :
  let w := run Sample.without_event_source [PickOption 1; PickOption 2]
               (Sample.page (Some (Sample.dropdown 0))) in
  intervals w = 2%nat /\ open_sources w = 0%nat /\ es w = None
  /\ active_channels w = 2%nat.
Proof. vm_compute. repeat split. Qed.

Example one_source_with_event_source :
  let w := run Sample.with_event_source [PickOption 1; PickOption 2]
               (Sample.page (Some (Sample.dropdown 0))) in
  intervals w = 0%nat /\ open_sources w = 1%nat /\ es w = Some 1%nat
  /\ active_channels w = 1%nat.
Proof. vm_compute. repeat split. Qed.

(** ** Concrete runs *)

Lemma formatRuntime_examples :
  formatRuntime (VStr (str " 90")) = str "1:30"
  /\ formatRuntime (VNum 59) = str "0:59"
  /\ formatRuntime (VNum 0) = str "0:00"
  /\ formatRuntime VUndefined = str "".
Proof. repeat split; reflexivity. Qed.

(** C2, as first stated, fails: with only white space typed as synopsis
    the field is empty after trimming, yet the payload carries
    [new_synopsis], the empty string. *)
Lemma blank_synopsis_is_sent :
  truthy (trim (synopsis_field Sample.blank_synopsis)) = false
  /\ save_payload Sample.heat_context Sample.blank_synopsis (str "Favorites")
       !! "new_synopsis" = Some (VStr [])
  /\ ~ payload_as_specified Sample.heat_context Sample.blank_synopsis
         (str "Favorites")
         (save_payload Sample.heat_context Sample.blank_synopsis (str "Favorites")).
Proof.
  assert (Hsent : save_payload Sample.heat_context Sample.blank_synopsis
                    (str "Favorites") !! "new_synopsis" = Some (VStr [])).
  { vm_compute. reflexivity. }
  split; [reflexivity|]. split; [exact Hsent|].
  intros (_ & _ & _ & _ & _ & Hsyn).
  rewrite Hsent in Hsyn. vm_compute in Hsyn. discriminate Hsyn.
Qed.

Example only_title_typed :
  let p := save_payload Sample.heat_context
             (Modal (str "flex") (str " Heat 2 ") [] [] (Some []) None)
             (str "Favorites") in
  p !! "new_title" = Some (VStr (str "Heat 2"))
  /\ p !! "new_year" = None /\ p !! "new_genre" = None
  /\ p !! "new_synopsis" = None
  /\ p !! "id" = Some (VNum 7)
  /\ p !! "list_name" = Some (VStr (str "Favorites")).
Proof. vm_compute. repeat split. Qed.

Example synopsis_of_300_is_cut :
  save_payload Sample.heat_context
    (Modal (str "flex") [] [] [] (Some (repeat 97 300)) None)
    (str "Favorites") !! "new_synopsis"
  = Some (VStr (repeat 97 250)).
Proof. vm_compute. reflexivity. Qed.

Lemma save_sends_built_payload_witness :
  editingContext Sample.editing_heat = Some Sample.heat_context
  /\ payload_as_built Sample.heat_context (modal Sample.editing_heat)
       (selected_list_name Sample.editing_heat)
       (save_payload Sample.heat_context (modal Sample.editing_heat)
          (selected_list_name Sample.editing_heat)).
Proof.
  assert (H : editingContext Sample.editing_heat = Some Sample.heat_context)
    by reflexivity.
  split; [exact H|].
  exact (proj1 (proj2 (save_sends_built_payload Sample.with_event_source
                         Sample.editing_heat Sample.heat_context H))).
Defined.

Lemma refreshList_by_selection_witness :
  (selected_list_name (Sample.page (Some (Sample.dropdown 0))) = []
   /\ sent_requests
        (new_events (Sample.page (Some (Sample.dropdown 0)))
           (exec (refreshList Sample.with_event_source)
                 (Sample.page (Some (Sample.dropdown 0))))) = [])
  /\ (selected_list_name (Sample.page (Some (Sample.dropdown 1))) <> []
      /\ listContainer
           (exec (refreshList Sample.with_event_source)
                 (Sample.page (Some (Sample.dropdown 1))))
         = renderList (listContainer (Sample.page (Some (Sample.dropdown 1))))
                      Sample.a_listing).
Proof.
  split.
  - assert (H : selected_list_name (Sample.page (Some (Sample.dropdown 0))) = [])
      by reflexivity.
    split; [exact H|].
    exact (proj2 (proj1 (refreshList_by_selection Sample.with_event_source
                           (Sample.page (Some (Sample.dropdown 0)))) H)).
  - assert (H : selected_list_name (Sample.page (Some (Sample.dropdown 1))) <> [])
      by discriminate.
    split; [exact H|].
    exact (proj2 (proj2 (refreshList_by_selection Sample.with_event_source
                           (Sample.page (Some (Sample.dropdown 1)))) H)
                 eq_refl).
Defined.

Lemma rename_delete_guarded_witness :
  list_select (Sample.page (Some (Sample.dropdown 0))) = Some (Sample.dropdown 0)
  /\ select_value (Sample.dropdown 0) = []
  /\ sent_requests
       (new_events (Sample.page (Some (Sample.dropdown 0)))
          (exec (renameBtn_click Sample.with_event_source)
                (Sample.page (Some (Sample.dropdown 0))))) = []
  /\ sent_requests
       (new_events (Sample.page (Some (Sample.dropdown 0)))
          (exec (deleteBtn_click Sample.with_event_source)
                (Sample.page (Some (Sample.dropdown 0))))) = [].
Proof.
  assert (Hs : list_select (Sample.page (Some (Sample.dropdown 0)))
               = Some (Sample.dropdown 0)) by reflexivity.
  assert (Hv : select_value (Sample.dropdown 0) = []) by reflexivity.
  split; [exact Hs|]. split; [exact Hv|].
  destruct (rename_delete_guarded Sample.with_event_source
              (Sample.page (Some (Sample.dropdown 0))) (Sample.dropdown 0)
              Hs (or_introl Hv)) as [[_ Hr] [_ Hd]].
  split; [exact Hr | exact Hd].
Defined.

Lemma rename_same_or_empty_name_witness :
  list_select (Sample.page (Some (Sample.dropdown 1))) = Some (Sample.dropdown 1)
  /\ prompt_answer (Sample.typing "Favorites")
       (log (Sample.page (Some (Sample.dropdown 1)))) (str "Rename list to:")
       (select_value (Sample.dropdown 1))
     = Some (select_value (Sample.dropdown 1))
  /\ sent_requests
       (new_events (Sample.page (Some (Sample.dropdown 1)))
          (exec (renameBtn_click (Sample.typing "Favorites"))
                (Sample.page (Some (Sample.dropdown 1))))) = [].
Proof.
  assert (Hs : list_select (Sample.page (Some (Sample.dropdown 1)))
               = Some (Sample.dropdown 1)) by reflexivity.
  assert (Ha : prompt_answer (Sample.typing "Favorites")
                 (log (Sample.page (Some (Sample.dropdown 1))))
                 (str "Rename list to:") (select_value (Sample.dropdown 1))
               = Some (select_value (Sample.dropdown 1))) by reflexivity.
  split; [exact Hs|]. split; [exact Ha|].
  exact (proj1 (rename_same_or_empty_name (Sample.typing "Favorites")
                  (Sample.page (Some (Sample.dropdown 1))) (Sample.dropdown 1)
                  Hs (or_intror (or_intror Ha)))).
Defined.

Lemma missing_dropdown_uses_default_witness :
  list_select Sample.without_dropdown = None
  /\ (forall h r, fetch_fulfils Sample.with_event_source h r = true)
  /\ editingContext Sample.without_dropdown = Some Sample.heat_context
  /\ runs_and_renders (refreshList Sample.with_event_source)
       Sample.without_dropdown [list_request (str "default")]
  /\ save_payload Sample.heat_context (modal Sample.without_dropdown)
       (str "default") !! "list_name" = Some (VStr (str "default")).
Proof.
  assert (Hs : list_select Sample.without_dropdown = None) by reflexivity.
  assert (Hf : forall h r, fetch_fulfils Sample.with_event_source h r = true)
    by (intros h r; reflexivity).
  assert (Hc : editingContext Sample.without_dropdown = Some Sample.heat_context)
    by reflexivity.
  split; [exact Hs|]. split; [exact Hf|]. split; [exact Hc|].
  destruct (missing_dropdown_uses_default Sample.with_event_source
              Sample.without_dropdown Hs Hf) as (Hr & _ & _ & Hsave).
  split; [exact Hr|]. exact (proj2 (Hsave Sample.heat_context Hc)).
Defined.

Lemma refresh_follows_response_witness :
  editingContext Sample.editing_heat = Some Sample.heat_context
  /\ list_select Sample.editing_heat = Some (Sample.dropdown 1)
  /\ prompt_answer (Sample.typing "Noir") (log Sample.editing_heat)
       (str "New list name:") [] = Some (str "Noir")
  /\ refresh_follows
       (post "/api/update"
             (save_payload Sample.heat_context (modal Sample.editing_heat)
                           (selected_list_name Sample.editing_heat)))
       (new_events Sample.editing_heat
          (exec (modalSave_click (Sample.typing "Noir")) Sample.editing_heat))
  /\ refresh_follows_both
       (post "/api/lists" {["name" := VStr (trim (str "Noir"))]}) lists_request
       (new_events Sample.editing_heat
          (exec (newBtn_click (Sample.typing "Noir")) Sample.editing_heat)).
Proof.
  assert (Hc : editingContext Sample.editing_heat = Some Sample.heat_context)
    by reflexivity.
  assert (Hs : list_select Sample.editing_heat = Some (Sample.dropdown 1))
    by reflexivity.
  assert (Hp : prompt_answer (Sample.typing "Noir") (log Sample.editing_heat)
                 (str "New list name:") [] = Some (str "Noir")) by reflexivity.
  split; [exact Hc|]. split; [exact Hs|]. split; [exact Hp|].
  destruct (refresh_follows_response (Sample.typing "Noir") Sample.editing_heat)
    as (_ & _ & Hsave & _ & Hlists & _).
  split; [exact (Hsave Sample.heat_context Hc)|].
  exact (proj1 (Hlists (Sample.dropdown 1) Hs) (str "Noir") Hp).
Defined.

(** ** More on the formatter *)

Section FormatterMore.

(** The formatter without its guards: what it does on the digits. *)
Lemma formatRuntime_by_digits (raw : value) :
  formatRuntime raw = formatRuntime_spec raw.
Proof.
  assert (Hstr : forall s : jsstring,
             formatRuntime (VStr s) = formatRuntime_spec (VStr s)).
  { intros s. unfold formatRuntime, formatRuntime_spec, replace_non_digits.
    cbn [ToString]. rewrite filter_digit_trim.
    destruct (trim s) as [|c t] eqn:Ht.
    - rewrite <- (filter_digit_trim s), Ht. reflexivity.
    - cbn [truthy negb].
      pose proof (forallb_filter is_digit s) as Hall.
      destruct (List.filter is_digit s) as [|d ds] eqn:Hds; [reflexivity|].
      rewrite (parseInt10_digits (d :: ds) Hall) by discriminate.
      pose proof (decimal_value_nonneg (d :: ds) Hall) as Hn.
      cbv zeta. rewrite Z.rem_mod_nonneg by lia.
      rewrite padStart_minutes by (apply Z.mod_pos_bound; lia).
      reflexivity. }
  destruct raw as [| |z|s]; try reflexivity.
  - exact (Hstr (Number_toString z)).
  - exact (Hstr s).
Qed.

Lemma uint_units_digits (u : Decimal.uint) :
  forallb is_digit (uint_units u) = true.
Proof. induction u; cbn; auto. Qed.

(** Printing a natural number and reading the digits gives it back. *)
Lemma of_uint_acc_value (u : Decimal.uint) (acc : positive) :
  Z.pos (Pos.of_uint_acc u acc)
  = fold_left (fun a c => (10 * a + digit_value c)%Z) (uint_units u) (Z.pos acc).
Proof.
  revert acc. induction u; intros acc; cbn [Pos.of_uint_acc uint_units fold_left];
    [reflexivity | rewrite IHu; f_equal; unfold digit_value; lia ..].
Qed.

Lemma of_uint_value (u : Decimal.uint) :
  Z.of_N (N.of_uint u) = decimal_value (uint_units u).
Proof.
  unfold N.of_uint, decimal_value.
  induction u; cbn [Pos.of_uint uint_units fold_left];
    [reflexivity | exact IHu | cbn [Z.of_N]; rewrite of_uint_acc_value; reflexivity ..].
Qed.

Lemma decimal_value_printed (n : N) :
  decimal_value (uint_units (N.to_uint n)) = Z.of_N n.
Proof. rewrite <- of_uint_value, DecimalN.Unsigned.of_to. reflexivity. Qed.

Lemma printed_nonempty (n : N) : uint_units (N.to_uint n) <> [].
Proof.
  destruct n as [|p]; [discriminate|]. cbn [N.to_uint].
  pose proof (DecimalPos.Unsigned.to_uint_nonnil p) as H.
  destruct (Pos.to_uint p); [congruence | discriminate ..].
Qed.

(** The digits of a printed number are those of its absolute value. *)
Lemma digits_of_number (z : Z) :
  List.filter is_digit (Number_toString z)
  = uint_units (N.to_uint (Z.to_N (Z.abs z))).
Proof.
  unfold Number_toString. destruct (Z.ltb_spec z 0) as [Hneg|Hpos].
  - cbn [List.filter]. change (is_digit 45) with false. cbn iota.
    rewrite forallb_filter_id by apply uint_units_digits.
    do 3 f_equal. lia.
  - rewrite forallb_filter_id by apply uint_units_digits.
    do 3 f_equal. lia.
Qed.

(** X1. A number of minutes is formatted from its absolute value: the
    sign is lost with the other non-digits. *)
Theorem formatRuntime_of_number (z : Z) :
  safe_integer z ->
  formatRuntime (VNum z)
  = Number_toString (Z.abs z / 60) ++ str ":" ++ zero_pad2 (Z.abs z mod 60).
Proof.
  intros _. rewrite formatRuntime_by_digits. unfold formatRuntime_spec.
  cbn [ToString]. rewrite digits_of_number.
  pose proof (printed_nonempty (Z.to_N (Z.abs z))) as Hne.
  pose proof (decimal_value_printed (Z.to_N (Z.abs z))) as Hval.
  rewrite Z2N.id in Hval by lia.
  destruct (uint_units (N.to_uint (Z.to_N (Z.abs z)))) as [|d ds];
    [congruence|].
  cbv zeta. rewrite Hval. reflexivity.
Qed.

(** What the formatter returns is never empty once there is a digit. *)
Lemma formatted_nonempty (h m : jsstring) : h ++ str ":" ++ m <> [].
Proof. destruct h; discriminate. Qed.

Lemma formatRuntime_nil_iff (raw : value) :
  formatRuntime raw = [] <-> List.filter is_digit (ToString raw) = [].
Proof.
  rewrite formatRuntime_by_digits. unfold formatRuntime_spec.
  destruct (List.filter is_digit (ToString raw)) as [|d ds].
  - split; reflexivity.
  - cbv zeta. split; [|discriminate].
    intros H. exfalso. exact (formatted_nonempty _ _ H).
Qed.

(** X2. The formatter returns the empty string exactly when its input,
    as a string, has no digit. *)
Theorem formatRuntime_empty_iff (raw : value) :
  formatRuntime raw = [] <-> List.filter is_digit (ToString raw) = [].
Proof.
  rewrite formatRuntime_by_digits. unfold formatRuntime_spec.
  destruct (List.filter is_digit (ToString raw)) as [|d ds].
  - split; reflexivity.
  - cbv zeta. split; [|discriminate].
    intros H. exfalso. exact (formatted_nonempty _ _ H).
Qed.

Lemma zero_pad2_two_digits (m : Z) :
  (0 <= m < 60)%Z ->
  exists d1 d2, zero_pad2 m = [d1; d2]
                /\ is_digit d1 = true /\ is_digit d2 = true
                /\ decimal_value [d1; d2] = m.
Proof.
  intros Hm.
  assert (Hcases : exists k : nat, (k < 60)%nat /\ m = Z.of_nat k).
  { exists (Z.to_nat m). split; lia. }
  destruct Hcases as (k & Hk & ->).
  do 60 (destruct k as [|k];
         [eexists; eexists; repeat split; reflexivity|]).
  lia.
Qed.

(** X3. For an input whose digits spell an integer below 2^53, the range
    in which a number holds every integer exactly, a non-empty result reads
    hours, a colon, and two digits that spell a number of minutes below
    sixty, and hours and minutes add up to the integer spelled. *)
Theorem formatRuntime_shape (raw : value) :
  safe_integer (decimal_value (List.filter is_digit (ToString raw))) ->
  formatRuntime raw <> [] ->
  exists hours d1 d2,
    formatRuntime raw = hours ++ str ":" ++ [d1; d2]
    /\ hours <> [] /\ forallb is_digit hours = true
    /\ is_digit d1 = true /\ is_digit d2 = true
    /\ (decimal_value [d1; d2] < 60)%Z
    /\ (60 * decimal_value hours + decimal_value [d1; d2]
        = decimal_value (List.filter is_digit (ToString raw)))%Z.
Proof.
  intros _. rewrite formatRuntime_by_digits. unfold formatRuntime_spec.
  pose proof (forallb_filter is_digit (ToString raw)) as Hall.
  destruct (List.filter is_digit (ToString raw)) as [|d ds]; [congruence|].
  intros _. cbv zeta.
  pose proof (decimal_value_nonneg (d :: ds) Hall) as Hn.
  set (n := decimal_value (d :: ds)) in *.
  destruct (zero_pad2_two_digits (n mod 60)) as (d1 & d2 & Hpad & H1 & H2 & Hm).
  { apply Z.mod_pos_bound. lia. }
  exists (Number_toString (n / 60)), d1, d2.
  assert (Hh : Number_toString (n / 60)
               = uint_units (N.to_uint (Z.to_N (n / 60)))).
  { unfold Number_toString.
    destruct (Z.ltb_spec (n / 60) 0) as [Hneg|_]; [|reflexivity].
    pose proof (Z.div_pos n 60). lia. }
  rewrite Hpad, Hh. repeat split; try assumption.
  - apply printed_nonempty.
  - apply uint_units_digits.
  - rewrite Hm. apply Z.mod_pos_bound. lia.
  - rewrite Hm, decimal_value_printed, Z2N.id by (apply Z.div_pos; lia).
    pose proof (Z.div_mod n 60). lia.
Qed.

End FormatterMore.

(** ** More on the renderer *)

Section RendererMore.

Lemma textContent_set_textContent (s : jsstring) (tag : string) :
  textContent (set_textContent s (createElement tag)) = s.
Proof.
  destruct s as [|c s]; cbn; [reflexivity|].
  rewrite app_nil_r. reflexivity.
Qed.

Lemma render_movie_shape (year genre : jsstring) (m : movie) :
  exists rest,
    render_movie year genre m
    = Element "li" [] []
        (set_textContent (movie_title m) (createElement "span") :: rest).
Proof.
  unfold render_movie. cbv zeta.
  destruct (truthy (formatRuntime (movie_runtime m)));
    destruct (has_synopsis m); eexists; reflexivity.
Qed.

Lemma first_text_render_movie (year genre : jsstring) (m : movie) :
  first_text (render_movie year genre m) = movie_title m.
Proof.
  destruct (render_movie_shape year genre m) as (rest & ->).
  unfold first_text. cbn [childNodes].
  apply textContent_set_textContent.
Qed.

Lemma render_genre_children (year genre : jsstring) (ms : list movie) :
  render_genre year genre ms
  = Element "div" [("className"%string, str "genre")] []
      [set_textContent genre (createElement "h4");
       Element "ul" [] [] (List.map (render_movie year genre) ms)].
Proof.
  unfold render_genre. cbv zeta.
  unfold createElement. cbn [set_prop appendChild app].
  rewrite (fold_appendChild (render_movie year genre)). reflexivity.
Qed.

Lemma render_year_children (year : jsstring) (gs : genres) :
  render_year year gs
  = Element "div" [("className"%string, str "year")] []
      (set_textContent year (createElement "h3")
       :: List.map (fun g => render_genre year (fst g) (snd g)) gs).
Proof.
  unfold render_year. cbv zeta.
  unfold createElement. cbn [set_prop appendChild app].
  rewrite (fold_appendChild (fun g => render_genre year (fst g) (snd g))).
  reflexivity.
Qed.

Lemma read_genre_render (year genre : jsstring) (ms : list movie) :
  read_genre (render_genre year genre ms) = (genre, List.map movie_title ms).
Proof.
  rewrite render_genre_children. unfold read_genre, first_text.
  cbn [childNodes]. rewrite textContent_set_textContent. f_equal.
  rewrite List.map_map. apply List.map_ext. intros m.
  apply first_text_render_movie.
Qed.

Lemma read_year_render (year : jsstring) (gs : genres) :
  read_year (render_year year gs)
  = (year, List.map (fun g => (fst g, List.map movie_title (snd g))) gs).
Proof.
  rewrite render_year_children. unfold read_year, first_text.
  cbn [childNodes tail]. rewrite textContent_set_textContent. f_equal.
  rewrite List.map_map. apply List.map_ext. intros g.
  apply read_genre_render.
Qed.

(** X4. Reading the rendered tree back gives the years, genres and
    titles of the listing, in the listing's order. *)
Theorem renderList_shows_listing (l : listing) (tag : string)
    (props : list (string * jsstring)) (ls : list listener) (old : list node) :
  l <> [] ->
  read_listing (renderList (Element tag props ls old) l) = outline_of l.
Proof.
  intros Hl. rewrite renderList_children. unfold read_listing, outline_of.
  cbn [childNodes]. destruct l as [|y l]; [congruence|].
  cbn [rendered]. rewrite List.map_map. apply List.map_ext. intros y'.
  apply read_year_render.
Qed.

Lemma listeners_of_heading (s : jsstring) (tag : string) :
  listeners_of (set_textContent s (createElement tag)) = [].
Proof. destruct s; reflexivity. Qed.

Lemma listeners_of_render_movie (year genre : jsstring) (m : movie) :
  listeners_of (render_movie year genre m)
  = [RemoveClick m year genre; EditClick m year genre].
Proof.
  unfold render_movie. cbv zeta.
  destruct (truthy (formatRuntime (movie_runtime m)));
    destruct (has_synopsis m); destruct (movie_title m);
    try destruct (synopsis_or_empty m); reflexivity.
Qed.

Lemma concat_map_flat_map {A B : Type} (f : A -> list B) (l : list A) :
  concat (List.map f l) = flat_map f l.
Proof. induction l as [|x l IH]; cbn; [reflexivity|]. rewrite IH. reflexivity. Qed.

Lemma listeners_of_render_genre (year genre : jsstring) (ms : list movie) :
  listeners_of (render_genre year genre ms)
  = flat_map (fun m => [RemoveClick m year genre; EditClick m year genre]) ms.
Proof.
  rewrite render_genre_children. cbn [listeners_of List.map concat app].
  rewrite listeners_of_heading, app_nil_r. cbn [app].
  rewrite List.map_map, concat_map_flat_map.
  apply flat_map_ext. intros m. apply listeners_of_render_movie.
Qed.

Lemma listeners_of_render_year (year : jsstring) (gs : genres) :
  listeners_of (render_year year gs)
  = flat_map (fun g =>
      flat_map (fun m => [RemoveClick m year (fst g); EditClick m year (fst g)])
               (snd g)) gs.
Proof.
  rewrite render_year_children. cbn [listeners_of List.map concat app].
  rewrite listeners_of_heading. cbn [app].
  rewrite List.map_map, concat_map_flat_map.
  apply flat_map_ext. intros g. apply listeners_of_render_genre.
Qed.

(** X5. The rendered tree carries, besides the container's own
    listeners, exactly one remove and one edit listener per movie, in
    listing order, each bound to its movie and to the year and genre the
    movie is listed under. *)
Theorem renderList_wires_each_movie (l : listing) (tag : string)
    (props : list (string * jsstring)) (ls : list listener) (old : list node) :
  listeners_of (renderList (Element tag props ls old) l)
  = ls ++ listing_listeners l.
Proof.
  rewrite renderList_children. cbn [listeners_of]. f_equal.
  destruct l as [|y l]; [reflexivity|].
  cbn [rendered]. rewrite List.map_map, concat_map_flat_map.
  apply flat_map_ext. intros y'. apply listeners_of_render_year.
Qed.

(** X6. An entry has a runtime part exactly when the runtime, as a
    string, has a digit, and a synopsis paragraph exactly when the
    synopsis is there and not blank. *)
Theorem render_movie_optional_parts (year genre : jsstring) (m : movie) :
  (has_class (str "runtime") (render_movie year genre m) = true
   <-> List.filter is_digit (ToString (movie_runtime m)) <> [])
  /\ (has_class (str "synopsis") (render_movie year genre m) = true
      <-> exists s, movie_synopsis m = Some s /\ trim s <> []).
Proof.
  split.
  - pose proof (formatRuntime_nil_iff (movie_runtime m)) as Hnil.
    unfold render_movie. cbv zeta.
    destruct (formatRuntime (movie_runtime m)) as [|c f];
      destruct (has_synopsis m); destruct (movie_title m);
      try destruct (synopsis_or_empty m); cbn; split; intros H;
      try discriminate H; try reflexivity.
    all: try (exfalso; apply H; apply Hnil; reflexivity).
    all: intros Hd; apply Hnil in Hd; discriminate Hd.
  - assert (Hsyn : has_synopsis m = true
                   <-> exists s, movie_synopsis m = Some s /\ trim s <> []).
    { unfold has_synopsis. destruct (movie_synopsis m) as [s|].
      - split.
        + intros [_ Ht]%andb_true_iff. exists s. split; [reflexivity|].
          destruct (trim s); [discriminate Ht | discriminate].
        + intros (s' & Hs & Ht). injection Hs as <-.
          destruct s as [|c s]; [exfalso; apply Ht; reflexivity|].
          destruct (trim (c :: s)); [congruence | reflexivity].
      - split; [discriminate|]. intros (s' & Hs & _). discriminate Hs. }
    rewrite <- Hsyn. unfold render_movie. cbv zeta.
    destruct (formatRuntime (movie_runtime m)) as [|c f];
      destruct (has_synopsis m); destruct (movie_title m);
      try destruct (synopsis_or_empty m); cbn; split; intros H;
      try discriminate H; reflexivity.
Qed.

End RendererMore.

(** ** The search form *)

Section SearchFacts.

Import Search.

Lemma fold_rappend {A : Type} (f : A -> rnode) (l : list A)
    (tag : string) props add kids :
  fold_left (fun ul x => rappend ul (f x)) l (RElement tag props add kids)
  = RElement tag props add (kids ++ List.map f l).
Proof.
  revert kids. induction l as [|x l IH]; intros kids; cbn [fold_left List.map].
  - rewrite app_nil_r. reflexivity.
  - cbn [rappend]. rewrite IH, <- app_assoc. reflexivity.
Qed.

Lemma result_text_nonempty (it : item) : truthy (result_text it) = true.
Proof.
  unfold result_text. cbv zeta. destruct (item_title it); reflexivity.
Qed.

Lemma result_entry_shape (it : item) :
  result_entry it
  = RElement "li" [] []
      [RText (result_text it);
       RElement "button" [("type"%string, str "button")] [item_id it]
                [RText (str "Add")]].
Proof.
  unfold result_entry. cbv zeta. cbn [rset_text rappend app].
  rewrite result_text_nonempty. reflexivity.
Qed.

(** X24. A search whose request is rejected stops there: the results
    keep showing 'Searching...' and nothing is reported. With both fields
    empty the request carries no parameter, and otherwise exactly the
    non-empty ones, title first. *)
Theorem search_rejected_keeps_searching (E : env) (title year year_now : jsstring)
    (answer : reply) (w : world) :
  let r := search_request title year in
  fetch_fulfils E (log w ++ [EvRequest r]) r = false ->
  form_submit E title year year_now answer w
  = (Throw FetchRejected,
     set_log (log w ++ [EvRequest r; EvSettled r false]) w,
     set_results_html searching_html)
  /\ List.map fst (req_query r)
     = (if truthy title then ["title"%string] else [])
       ++ (if truthy year then ["year"%string] else [])
  /\ Forall (fun kv => snd kv <> []) (req_query r).
Proof.
  intros r Hrej. subst r. split; [|split].
  - destruct w as [sel cont md ctx0 e srcs ivs lg]. cbn [log] in Hrej.
    unfold form_submit, fetch, emit, modify, get, throw, mbind, M_bind, mret,
      M_ret. cbn [log set_log list_select listContainer modal editingContext
                  es event_sources intervals fst snd].
    rewrite Hrej. cbn [log set_log list_select listContainer modal
                       editingContext es event_sources intervals].
    rewrite <- app_assoc. reflexivity.
  - unfold search_request. cbn [req_query].
    destruct title, year; reflexivity.
  - unfold search_request. cbn [req_query].
    destruct title, year; cbn; repeat constructor; discriminate.
Qed.

(** X25. A reply with results is shown as one list with one entry per
    result, in the order of the reply; each entry shows the text of its
    result and has one add button, bound to the id of that result. The
    note about the year follows the list exactly when the year field is
    empty once the reply has arrived. *)
Theorem search_results_listed (year_now : jsstring) (items : list item) :
  items <> [] ->
  let r := show_results year_now (Items items) in
  markup r = []
  /\ exists ul,
       appended r = ul :: (if truthy year_now then [] else [search_note])
       /\ rchildren ul = List.map result_entry items
       /\ List.map entry_text (rchildren ul) = List.map result_text items
       /\ add_ids ul = List.map item_id items
       /\ List.map add_ids (rchildren ul) = List.map (fun it => [item_id it]) items.
Proof.
  intros Hne r. subst r. destruct items as [|it items]; [congruence|].
  unfold show_results. cbv zeta.
  rewrite (fold_rappend result_entry).
  cbn [app results_append set_results_html markup appended].
  split; [destruct (truthy year_now); reflexivity|].
  eexists. split; [destruct (truthy year_now); reflexivity|].
  cbn [rchildren add_ids app].
  assert (Htext : forall l, List.map entry_text (List.map result_entry l)
                            = List.map result_text l).
  { intros l. rewrite List.map_map. apply List.map_ext. intros x.
    rewrite result_entry_shape. reflexivity. }
  assert (Hids : forall l, List.map add_ids (List.map result_entry l)
                           = List.map (fun x => [item_id x]) l).
  { intros l. rewrite List.map_map. apply List.map_ext. intros x.
    rewrite result_entry_shape. reflexivity. }
  repeat split.
  - apply Htext.
  - rewrite Hids. clear. generalize (it :: items). intros l.
    induction l as [|x l IH]; cbn; [reflexivity|]. rewrite IH. reflexivity.
  - apply Hids.
Qed.

(** X26. Nodes are appended to the results exactly when the reply is an
    array with at least one result: an error and an empty reply only set
    the markup, the error message going into it as it is. *)
Theorem search_without_results (year_now : jsstring) (answer : reply) :
  (appended (show_results year_now answer) = []
   <-> match answer with
       | Items (_ :: _) => False
       | _ => True
       end)
  /\ (forall message, answer = ErrorObject message -> message <> [] ->
      markup (show_results year_now answer)
      = str "<p class=" ++ quote ++ str "error" ++ quote ++ str ">"
        ++ message ++ str "</p>")
  /\ (answer = Items [] \/ answer = ErrorObject [] ->
      markup (show_results year_now answer) = str "<p>No results found.</p>").
Proof.
  split; [|split].
  - destruct answer as [[|c msg]|[|it items]]; cbn; try tauto.
    unfold show_results. cbv zeta. rewrite (fold_rappend result_entry).
    destruct (truthy year_now); cbn; split; [discriminate | tauto | discriminate | tauto].
  - intros message -> Hne. destruct message; [congruence | reflexivity].
  - intros [->| ->]; reflexivity.
Qed.

End SearchFacts.

(** ** Concrete runs of the further properties *)

Lemma formatRuntime_of_number_witness :
  safe_integer (-125)
  /\ formatRuntime (VNum (-125)) = str "2:05".
Proof.
  assert (H : safe_integer (-125)) by (unfold safe_integer; cbn; lia).
  split; [exact H|]. exact (formatRuntime_of_number (-125) H).
Defined.

Lemma formatRuntime_shape_witness :
  safe_integer (decimal_value
                  (List.filter is_digit (ToString (VStr (str "142 min")))))
  /\ formatRuntime (VStr (str "142 min")) <> []
  /\ exists hours d1 d2,
       formatRuntime (VStr (str "142 min")) = hours ++ str ":" ++ [d1; d2]
       /\ hours <> [].
Proof.
  assert (H1 : safe_integer
                 (decimal_value
                    (List.filter is_digit (ToString (VStr (str "142 min"))))))
    by (unfold safe_integer; vm_compute; reflexivity).
  assert (H2 : formatRuntime (VStr (str "142 min")) <> [])
    by (vm_compute; discriminate).
  split; [exact H1|]. split; [exact H2|].
  destruct (formatRuntime_shape (VStr (str "142 min")) H1 H2)
    as (hours & d1 & d2 & Heq & Hne & _).
  exists hours, d1, d2. split; [exact Heq | exact Hne].
Defined.

Lemma renderList_shows_listing_witness :
  Sample.a_listing <> []
  /\ Outline.read_listing (renderList (createElement "div") Sample.a_listing)
     = [(str "1995", [(str "Crime", [str "Heat"])])].
Proof.
  assert (H : Sample.a_listing <> []) by discriminate.
  split; [exact H|].
  exact (renderList_shows_listing Sample.a_listing "div" [] [] [] H).
Defined.

Lemma save_without_context_does_nothing_witness :
  editingContext Scene.favorites_page = None
  /\ modalSave_click Sample.with_event_source Scene.favorites_page
     = (Ok tt, Scene.favorites_page).
Proof.
  assert (H : editingContext Scene.favorites_page = None) by reflexivity.
  split; [exact H|].
  exact (proj1 (save_without_context_does_nothing Sample.with_event_source
                  Scene.favorites_page) H).
Defined.

Lemma save_rejected_keeps_modal_witness :
  editingContext Sample.editing_heat = Some Sample.heat_context
  /\ outcome (modalSave_click (Scene.offline None)) Sample.editing_heat
     = Throw FetchRejected
  /\ editingContext (exec (modalSave_click (Scene.offline None)) Sample.editing_heat)
     = Some Sample.heat_context.
Proof.
  assert (H : editingContext Sample.editing_heat = Some Sample.heat_context)
    by reflexivity.
  split; [exact H|].
  destruct (save_rejected_keeps_modal (Scene.offline None) Sample.editing_heat
              Sample.heat_context H eq_refl) as [Hout Hstate].
  split; [exact Hout|]. rewrite Hstate. reflexivity.
Defined.

Lemma save_fulfilled_closes_modal_witness :
  editingContext Sample.editing_heat = Some Sample.heat_context
  /\ editingContext (exec (modalSave_click Sample.with_event_source)
                          Sample.editing_heat) = None.
Proof.
  assert (H : editingContext Sample.editing_heat = Some Sample.heat_context)
    by reflexivity.
  split; [exact H|].
  exact (proj1 (save_fulfilled_closes_modal Sample.with_event_source
                  Sample.editing_heat Sample.heat_context H eq_refl)).
Defined.

Lemma declined_confirmation_aborts_witness :
  confirm_answer Scene.declining (log Scene.favorites_page)
    (remove_question Sample.heat (str "1995") (str "Crime")) = false
  /\ list_select Scene.favorites_page = Some (Sample.dropdown 1)
  /\ sent_requests
       (new_events Scene.favorites_page
          (exec (removeBtn_click Scene.declining Sample.heat (str "1995")
                                 (str "Crime")) Scene.favorites_page)) = []
  /\ sent_requests
       (new_events Scene.favorites_page
          (exec (deleteBtn_click Scene.declining) Scene.favorites_page)) = [].
Proof.
  assert (H1 : confirm_answer Scene.declining (log Scene.favorites_page)
                 (remove_question Sample.heat (str "1995") (str "Crime")) = false)
    by reflexivity.
  assert (H2 : list_select Scene.favorites_page = Some (Sample.dropdown 1))
    by reflexivity.
  split; [exact H1|]. split; [exact H2|].
  destruct (declined_confirmation_aborts Scene.declining Scene.favorites_page)
    as (Hrem & _ & Hdel).
  split.
  - rewrite (Hrem Sample.heat (str "1995") (str "Crime") H1). reflexivity.
  - rewrite (Hdel (Sample.dropdown 1) H2 eq_refl
               ltac:(discriminate) ltac:(discriminate)).
    reflexivity.
Defined.

Lemma create_rejected_alerts_witness :
  prompt_answer (Scene.offline (Some (str "Noir"))) (log Scene.favorites_page)
    (str "New list name:") [] = Some (str "Noir")
  /\ str "Noir" <> []
  /\ outcome (newBtn_click (Scene.offline (Some (str "Noir")))) Scene.favorites_page
     = Ok tt.
Proof.
  assert (H1 : prompt_answer (Scene.offline (Some (str "Noir")))
                 (log Scene.favorites_page) (str "New list name:") []
               = Some (str "Noir")) by reflexivity.
  assert (H2 : str "Noir" <> []) by discriminate.
  split; [exact H1|]. split; [exact H2|].
  exact (proj1 (create_rejected_alerts (Scene.offline (Some (str "Noir")))
                  Scene.favorites_page (str "Noir") H1 H2 eq_refl)).
Defined.

Lemma refreshListsDropdown_rebuilds_witness :
  list_select Scene.favorites_page = Some (Sample.dropdown 1)
  /\ selected_list_name
       (exec (refreshListsDropdown Sample.with_event_source) Scene.favorites_page)
     = [].
Proof.
  assert (H : list_select Scene.favorites_page = Some (Sample.dropdown 1))
    by reflexivity.
  split; [exact H|].
  exact (proj1 (proj2 (proj1 (refreshListsDropdown_rebuilds
                                Sample.with_event_source Scene.favorites_page
                                (Sample.dropdown 1) H) eq_refl))).
Defined.

Lemma delete_confirmed_clears_selection_witness :
  list_select Scene.favorites_page = Some (Sample.dropdown 1)
  /\ select_value (Sample.dropdown 1) <> []
  /\ select_value (Sample.dropdown 1) <> str "default"
  /\ selected_list_name
       (exec (deleteBtn_click Sample.with_event_source) Scene.favorites_page) = [].
Proof.
  assert (H1 : list_select Scene.favorites_page = Some (Sample.dropdown 1))
    by reflexivity.
  assert (H2 : select_value (Sample.dropdown 1) <> []) by discriminate.
  assert (H3 : select_value (Sample.dropdown 1) <> str "default") by discriminate.
  split; [exact H1|]. split; [exact H2|]. split; [exact H3|].
  exact (proj1 (proj2 (delete_confirmed_clears_selection
                         Sample.with_event_source Scene.favorites_page
                         (Sample.dropdown 1) H1 H2 H3 eq_refl
                         (fun _ _ => eq_refl)))).
Defined.

Lemma pick_no_list_closes_stream_witness :
  list_select Scene.favorites_page = Some (Sample.dropdown 1)
  /\ options (Sample.dropdown 1) !! 0%nat = Some []
  /\ es_consistent Scene.favorites_page
  /\ open_sources (exec (pick_option Sample.with_event_source 0)
                        Scene.favorites_page) = 0%nat.
Proof.
  assert (H1 : list_select Scene.favorites_page = Some (Sample.dropdown 1))
    by reflexivity.
  assert (H2 : options (Sample.dropdown 1) !! 0%nat = Some []) by reflexivity.
  assert (H3 : es_consistent Scene.favorites_page)
    by (apply fresh_page_consistent; reflexivity).
  split; [exact H1|]. split; [exact H2|]. split; [exact H3|].
  exact (proj1 (proj2 (proj2 (pick_no_list_closes_stream
                                Sample.with_event_source Scene.favorites_page
                                (Sample.dropdown 1) H1 H2 H3)))).
Defined.

Lemma pick_list_subscribes_witness :
  list_select Scene.favorites_page = Some (Sample.dropdown 1)
  /\ options (Sample.dropdown 1) !! 2%nat = Some (str "Watchlist")
  /\ str "Watchlist" <> []
  /\ es_consistent Scene.favorites_page
  /\ open_sources (exec (pick_option Sample.with_event_source 2)
                        Scene.favorites_page) = 1%nat.
Proof.
  assert (H1 : list_select Scene.favorites_page = Some (Sample.dropdown 1))
    by reflexivity.
  assert (H2 : options (Sample.dropdown 1) !! 2%nat = Some (str "Watchlist"))
    by reflexivity.
  assert (H3 : str "Watchlist" <> []) by discriminate.
  assert (H4 : es_consistent Scene.favorites_page)
    by (apply fresh_page_consistent; reflexivity).
  split; [exact H1|]. split; [exact H2|]. split; [exact H3|]. split; [exact H4|].
  destruct (pick_list_subscribes Sample.with_event_source Scene.favorites_page
              (Sample.dropdown 1) 2 (str "Watchlist") H1 H2 H3 H4
              (fun _ _ => eq_refl) (fun _ _ => eq_refl))
    as (_ & _ & _ & _ & _ & _ & Hopen & _).
  exact Hopen.
Defined.

Lemma pick_list_fetch_rejected_witness :
  list_select Scene.favorites_page = Some (Sample.dropdown 1)
  /\ options (Sample.dropdown 1) !! 2%nat = Some (str "Watchlist")
  /\ str "Watchlist" <> []
  /\ outcome (pick_option (Scene.offline None) 2) Scene.favorites_page
     = Throw FetchRejected.
Proof.
  assert (H1 : list_select Scene.favorites_page = Some (Sample.dropdown 1))
    by reflexivity.
  assert (H2 : options (Sample.dropdown 1) !! 2%nat = Some (str "Watchlist"))
    by reflexivity.
  assert (H3 : str "Watchlist" <> []) by discriminate.
  split; [exact H1|]. split; [exact H2|]. split; [exact H3|].
  exact (proj1 (pick_list_fetch_rejected (Scene.offline None) Scene.favorites_page
                  (Sample.dropdown 1) 2 (str "Watchlist") H1 H2 H3 eq_refl)).
Defined.

Lemma create_subscribes_to_typed_name_witness :
  list_select Scene.favorites_page = Some (Sample.dropdown 1)
  /\ prompt_answer (Sample.typing "default") (log Scene.favorites_page)
       (str "New list name:") [] = Some (str "default")
  /\ str "default" <> []
  /\ es_consistent Scene.favorites_page
  /\ open_sources (exec (newBtn_click (Sample.typing "default"))
                        Scene.favorites_page) = 1%nat
  /\ selected_list_name (exec (newBtn_click (Sample.typing "default"))
                              Scene.favorites_page) = [].
Proof.
  assert (H1 : list_select Scene.favorites_page = Some (Sample.dropdown 1))
    by reflexivity.
  assert (H2 : prompt_answer (Sample.typing "default") (log Scene.favorites_page)
                 (str "New list name:") [] = Some (str "default")) by reflexivity.
  assert (H3 : str "default" <> []) by discriminate.
  assert (H4 : es_consistent Scene.favorites_page)
    by (apply fresh_page_consistent; reflexivity).
  split; [exact H1|]. split; [exact H2|]. split; [exact H3|]. split; [exact H4|].
  destruct (create_subscribes_to_typed_name (Sample.typing "default")
              Scene.favorites_page (Sample.dropdown 1) (str "default")
              H1 H2 H3 H4 (fun _ _ => eq_refl) (fun _ _ => eq_refl))
    as (_ & _ & _ & Hopen & _ & Hdef).
  split; [exact Hopen | exact (Hdef eq_refl)].
Defined.

Lemma initial_load_selects_nothing_witness :
  list_select Scene.favorites_page = Some (Sample.dropdown 1)
  /\ sent_requests
       (new_events Scene.favorites_page
          (exec (initial_load Sample.with_event_source) Scene.favorites_page))
     = [lists_request].
Proof.
  assert (H : list_select Scene.favorites_page = Some (Sample.dropdown 1))
    by reflexivity.
  split; [exact H|].
  exact (proj1 (proj2 (initial_load_selects_nothing Sample.with_event_source
                         Scene.favorites_page (Sample.dropdown 1) H
                         (fun _ _ => eq_refl)))).
Defined.

Lemma edit_then_save_sends_fields_back_witness :
  single_line (movie_title two_line_synopsis)
  /\ single_line (str "1995") /\ single_line (str "Crime")
  /\ modalSynopsis (modal Scene.favorites_page) <> None
  /\ save_payload (Context (movie_id two_line_synopsis) (str "1995") (str "Crime"))
       (modal (exec (editBtn_click two_line_synopsis (str "1995") (str "Crime"))
                    Scene.favorites_page))
       (selected_list_name Scene.favorites_page) !! "new_synopsis"
     = Some (VStr [108; 10; 109]).
Proof.
  assert (H1 : single_line (movie_title two_line_synopsis)) by reflexivity.
  assert (H2 : single_line (str "1995")) by reflexivity.
  assert (H3 : single_line (str "Crime")) by reflexivity.
  assert (H : modalSynopsis (modal Scene.favorites_page) <> None) by discriminate.
  split; [exact H1|]. split; [exact H2|]. split; [exact H3|]. split; [exact H|].
  destruct (edit_then_save_sends_fields_back Sample.with_event_source
              Scene.favorites_page two_line_synopsis (str "1995") (str "Crime")
              H1 H2 H3)
    as (_ & _ & _ & _ & _ & _ & Hsynopsis).
  rewrite (Hsynopsis H). reflexivity.
Defined.

Lemma save_payload_properties_witness :
  is_Some (save_payload Sample.heat_context Sample.blank_synopsis (str "Favorites")
             !! "new_synopsis")
  /\ In "new_synopsis"%string payload_keys.
Proof.
  assert (H : is_Some (save_payload Sample.heat_context Sample.blank_synopsis
                         (str "Favorites") !! "new_synopsis")).
  { exists (VStr []). vm_compute. reflexivity. }
  split; [exact H|].
  exact (save_payload_properties Sample.heat_context Sample.blank_synopsis
           (str "Favorites") "new_synopsis" H).
Defined.

Lemma search_rejected_keeps_searching_witness :
  fetch_fulfils (Scene.offline None)
    (log Scene.favorites_page ++ [EvRequest (Search.search_request (str "Heat") [])])
    (Search.search_request (str "Heat") []) = false
  /\ snd (Search.form_submit (Scene.offline None) (str "Heat") [] []
            (Search.Items Scene.two_results) Scene.favorites_page)
     = Search.set_results_html Search.searching_html.
Proof.
  assert (H : fetch_fulfils (Scene.offline None)
                (log Scene.favorites_page
                 ++ [EvRequest (Search.search_request (str "Heat") [])])
                (Search.search_request (str "Heat") []) = false) by reflexivity.
  split; [exact H|].
  rewrite (proj1 (search_rejected_keeps_searching (Scene.offline None)
                    (str "Heat") [] [] (Search.Items Scene.two_results)
                    Scene.favorites_page H)).
  reflexivity.
Defined.

Lemma search_results_listed_witness :
  Scene.two_results <> []
  /\ Search.markup (Search.show_results [] (Search.Items Scene.two_results)) = [].
Proof.
  assert (H : Scene.two_results <> []) by discriminate.
  split; [exact H|].
  exact (proj1 (search_results_listed [] Scene.two_results H)).
Defined.

Lemma search_without_results_witness :
  Search.ErrorObject (str "rate limited") = Search.ErrorObject (str "rate limited")
  /\ str "rate limited" <> []
  /\ Search.markup (Search.show_results [] (Search.ErrorObject (str "rate limited")))
     = Search.error_html (str "rate limited")
  /\ Search.appended (Search.show_results [] (Search.ErrorObject (str "rate limited")))
     = [].
Proof.
  assert (H1 : Search.ErrorObject (str "rate limited")
               = Search.ErrorObject (str "rate limited")) by reflexivity.
  assert (H2 : str "rate limited" <> []) by discriminate.
  split; [exact H1|]. split; [exact H2|].
  destruct (search_without_results [] (Search.ErrorObject (str "rate limited")))
    as (Hnodes & Herr & _).
  split; [exact (Herr (str "rate limited") H1 H2) | exact (proj2 Hnodes I)].
Defined.

Example search_results_example :
  Search.add_ids
    (hd (Search.RText [])
        (Search.appended (Search.show_results (str "1995")
                            (Search.Items Scene.two_results))))
  = [VStr (str "tt0113277"); VStr (str "tt0093058")]
  /\ List.map Search.entry_text
       (Search.rchildren
          (hd (Search.RText [])
              (Search.appended (Search.show_results (str "1995")
                                  (Search.Items Scene.two_results)))))
     = [str "Heat (1995) " ++ Search.em_dash ++ str " 2:50 " ++ Search.em_dash
        ++ str " Crime";
        str "Heat (Unknown) " ++ Search.em_dash ++ str " "].
Proof. vm_compute. split; reflexivity. Qed.

(** ** The formatter and the range of numbers *)

Section FormatterRange.

Lemma exact_of_safe (z : Z) : safe_integer z -> Double.exact z = true.
Proof. unfold safe_integer, Double.exact. intros H. apply Z.ltb_lt. exact H. Qed.

(** In the exact range the two readings of lines 13-23 agree on every
    string. *)
Lemma formatRuntime_text_agrees (s : jsstring) :
  safe_integer (decimal_value (List.filter is_digit s)) ->
  (let t := trim s in
   if negb (truthy t) then Some []
   else
     match Double.parseInt (replace_non_digits t) with
     | None => None
     | Some n =>
         if Double.isNaN n then Some []
         else Some (Double.toString (Double.floor_div60 n) ++ str ":"
                    ++ padStart 2 (str "0") (Double.toString (Double.rem60 n)))
     end)
  = Some (let t := trim s in
          if negb (truthy t) then []
          else
            match parseInt10 (replace_non_digits t) with
            | None => []
            | Some n =>
                Number_toString (n / 60) ++ str ":"
                ++ padStart 2 (str "0") (Number_toString (Z.rem n 60))
            end).
Proof.
  intros Hsafe. cbv zeta. unfold replace_non_digits, Double.parseInt.
  rewrite filter_digit_trim.
  destruct (trim s) as [|c t]; [reflexivity|]. cbn [truthy negb].
  pose proof (forallb_filter is_digit s) as Hall.
  destruct (List.filter is_digit s) as [|d ds] eqn:Hds; [reflexivity|].
  rewrite (parseInt10_digits (d :: ds) Hall) by discriminate.
  unfold Double.of_integer. rewrite (exact_of_safe _ Hsafe). reflexivity.
Qed.

(** In the exact range the formatter on integers is the formatter. *)
Lemma formatRuntime_in_exact_range (raw : value) :
  safe_integer (decimal_value (List.filter is_digit (ToString raw))) ->
  Double.formatRuntime raw = Some (formatRuntime raw).
Proof.
  intros Hsafe. destruct raw as [| |z|s]; try reflexivity.
  - assert (Hz : Double.exact z = true).
    { cbn [ToString] in Hsafe. rewrite digits_of_number in Hsafe.
      rewrite decimal_value_printed, Z2N.id in Hsafe by lia.
      apply exact_of_safe. unfold safe_integer in *. lia. }
    unfold Double.formatRuntime, Double.String_of. rewrite Hz.
    exact (formatRuntime_text_agrees (ToString (VNum z)) Hsafe).
  - exact (formatRuntime_text_agrees s Hsafe).
Qed.

End FormatterRange.

(** C3, amended. On every raw runtime whose digits spell an integer
    below 2^53, the range in which a number holds every integer exactly,
    [formatRuntime] does what the specification says: the non-digits are
    stripped, what is left is read in base 10, no integer gives the empty
    string, and an integer [n] gives [floor(n/60)], a colon and [n mod 60]
    on two digits. In particular 125 gives 2:05, '142 min' gives 2:22, and
    the empty string, [null] and 'abc' give the empty string. *)
Theorem formatRuntime_exact_range_meets_spec :
  (forall raw : value,
      safe_integer (decimal_value (List.filter is_digit (ToString raw))) ->
      Double.formatRuntime raw = Some (formatRuntime_spec raw))
  /\ Double.formatRuntime (VNum 125) = Some (str "2:05")
  /\ Double.formatRuntime (VStr (str "142 min")) = Some (str "2:22")
  /\ Double.formatRuntime (VStr (str "")) = Some (str "")
  /\ Double.formatRuntime VNull = Some (str "")
  /\ Double.formatRuntime (VStr (str "abc")) = Some (str "").
Proof.
  split; [|repeat split; reflexivity].
  intros raw Hsafe. rewrite (formatRuntime_in_exact_range raw Hsafe).
  f_equal. apply formatRuntime_by_digits.
Qed.

Lemma formatRuntime_exact_range_meets_spec_witness :
  safe_integer (decimal_value (List.filter is_digit (ToString (VStr (str "142 min")))))
  /\ Double.formatRuntime (VStr (str "142 min"))
     = Some (formatRuntime_spec (VStr (str "142 min"))).
Proof.
  assert (H : safe_integer
                (decimal_value (List.filter is_digit (ToString (VStr (str "142 min")))))).
  { unfold safe_integer. vm_compute. reflexivity. }
  split; [exact H|].
  exact (proj1 formatRuntime_exact_range_meets_spec (VStr (str "142 min")) H).
Defined.

(** C3, as first stated, fails on a runtime of four hundred nines: the
    number read is [Infinity], and the formatter returns 'Infinity:NaN',
    which is not the hours and minutes of the integer the digits spell. *)
Lemma formatRuntime_overflows :
  Double.formatRuntime Double.four_hundred_nines = Some (str "Infinity:NaN")
  /\ Double.formatRuntime Double.four_hundred_nines
     <> Some (formatRuntime_spec Double.four_hundred_nines).
Proof.
  assert (H : Double.formatRuntime Double.four_hundred_nines
              = Some (str "Infinity:NaN")) by (vm_compute; reflexivity).
  split; [exact H|]. rewrite H. intros Heq.
  apply (f_equal (fun o => match o with Some (c :: _) => c | _ => 0 end)) in Heq.
  vm_compute in Heq. discriminate Heq.
Qed.

(** C8, as first stated, fails on the change of the drop-down, here to
    the list Favorites: the handler enters Refresh first and the only
    request is the one Refresh sends, so no response precedes the
    Refresh. *)
Lemma dropdown_change_refreshes_first :
  new_events Scene.favorites_page
    (exec (select_change Sample.with_event_source) Scene.favorites_page)
  = [EvRefresh; EvRequest (list_request (str "Favorites"));
     EvSettled (list_request (str "Favorites")) true]
  /\ ~ refresh_after_a_response
         (new_events Scene.favorites_page
            (exec (select_change Sample.with_event_source) Scene.favorites_page)).
Proof.
  assert (H : new_events Scene.favorites_page
                (exec (select_change Sample.with_event_source) Scene.favorites_page)
              = [EvRefresh; EvRequest (list_request (str "Favorites"));
                 EvSettled (list_request (str "Favorites")) true])
    by (vm_compute; reflexivity).
  split; [exact H|]. rewrite H. intros Hafter.
  destruct (Hafter [] _ eq_refl) as (r & []).
Qed.

Lemma refresh_awaits_response_witness :
  (confirm_answer Sample.with_event_source (log Scene.favorites_page)
     (remove_question Sample.heat (str "1995") (str "Crime")) = true
   /\ exists d,
        new_events Scene.favorites_page
          (exec (removeBtn_click Sample.with_event_source Sample.heat
                   (str "1995") (str "Crime")) Scene.favorites_page)
        = EvConfirm (remove_question Sample.heat (str "1995") (str "Crime")) true :: d
        /\ awaits_then_refresh Sample.with_event_source
             (log Scene.favorites_page
              ++ [EvConfirm (remove_question Sample.heat (str "1995") (str "Crime")) true])
             [post "/api/remove"
                   (<["list_name" := VStr (selected_list_name Scene.favorites_page)]>
                    (<["genre" := VStr (str "Crime")]>
                     (<["year" := VStr (str "1995")]>
                      {["id" := movie_id Sample.heat]})))] d)
  /\ (list_select Scene.favorites_page = Some (Sample.dropdown 1)
      /\ select_value (Sample.dropdown 1) <> []
      /\ select_value (Sample.dropdown 1) <> str "default"
      /\ prompt_answer (Sample.typing "Best") (log Scene.favorites_page)
           (str "Rename list to:") (select_value (Sample.dropdown 1))
         = Some (str "Best")
      /\ str "Best" <> [] /\ str "Best" <> select_value (Sample.dropdown 1)
      /\ exists d,
           new_events Scene.favorites_page
             (exec (renameBtn_click (Sample.typing "Best")) Scene.favorites_page)
           = EvPrompt (str "Rename list to:") (select_value (Sample.dropdown 1))
                      (Some (str "Best")) :: d
           /\ awaits_then_refresh (Sample.typing "Best")
                (log Scene.favorites_page
                 ++ [EvPrompt (str "Rename list to:")
                              (select_value (Sample.dropdown 1)) (Some (str "Best"))])
                [post "/api/lists/rename"
                      (<["new" := VStr (trim (str "Best"))]>
                       {["old" := VStr (select_value (Sample.dropdown 1))]});
                 lists_request] d).
Proof.
  assert (H : confirm_answer Sample.with_event_source (log Scene.favorites_page)
                (remove_question Sample.heat (str "1995") (str "Crime")) = true)
    by reflexivity.
  assert (Hs : list_select Scene.favorites_page = Some (Sample.dropdown 1))
    by reflexivity.
  assert (Hsel : select_value (Sample.dropdown 1) <> [])
    by (vm_compute; discriminate).
  assert (Hdef : select_value (Sample.dropdown 1) <> str "default")
    by (vm_compute; discriminate).
  assert (Hname : prompt_answer (Sample.typing "Best") (log Scene.favorites_page)
                    (str "Rename list to:") (select_value (Sample.dropdown 1))
                  = Some (str "Best")) by reflexivity.
  assert (Hne : str "Best" <> []) by (vm_compute; discriminate).
  assert (Hnew : str "Best" <> select_value (Sample.dropdown 1))
    by (vm_compute; discriminate).
  split.
  - split; [exact H|].
    exact (proj1 (proj2 (refresh_awaits_response Sample.with_event_source
                           Scene.favorites_page))
             Sample.heat (str "1995") (str "Crime") H).
  - repeat (split; [assumption|]).
    exact (proj1 (proj2 (proj1 (proj2 (proj2 (proj2 (proj2
                   (refresh_awaits_response (Sample.typing "Best")
                      Scene.favorites_page)))))
                   (Sample.dropdown 1) Hs) Hsel Hdef)
             (str "Best") Hname Hne Hnew).
Defined.
